(** * A shallow embedding of buildscripts/generate_resmoke_suites.py

    The suite generator aggregates historical per-test timings
    ([TestStats]), orders the tests by decreasing runtime, and packs them
    into sub-suites ([divide_tests_into_suites]); when the statistics
    service answers 503 it splits the tests round-robin instead
    ([calculate_fallback_suites]).

    Modelling conventions:
    - Python floats are modelled as exact rationals [Q]; Python ints as [Z].
    - Python exceptions are the constructors of [PyExc]; a computation that
      may raise lives in the small error monad [Res].
    - A Python list updated by index is a Rocq list with stdpp's lookup
      [l !! i] and insert [<[i := x]> l]; an out-of-range index raises
      [IndexError], written out explicitly.
    - A [defaultdict(dict)] is an insertion-ordered association list whose
      values are [option RuntimeInfo]: [None] is the empty dict [{}] that
      [defaultdict] creates on a missing key. *)

From Stdlib Require Import QArith Qabs Lqa Sorting.Sorted.
From stdpp Require Import base list strings.
From Stdlib Require Import Ascii.

Open Scope Q_scope.

(* ------------------------------------------------------------------ *)
(** ** Exceptions and the error monad *)

Inductive PyExc :=
  | ZeroDivisionError
  | IndexError
  | KeyError
  | HTTPError (status_code : Z)
  | OtherError.

Inductive Res (A : Type) :=
  | Ok (a : A)
  | Err (e : PyExc).
Arguments Ok {A} a.
Arguments Err {A} e.

Global Instance res_ret : MRet Res := fun A a => Ok a.
Global Instance res_bind : MBind Res :=
  fun A B (k : A -> Res B) (m : Res A) =>
    match m with Ok a => k a | Err e => Err e end.
Global Instance res_fmap : FMap Res :=
  fun A B (f : A -> B) (m : Res A) =>
    match m with Ok a => Ok (f a) | Err e => Err e end.

(** [requests.codes.SERVICE_UNAVAILABLE] *)
Definition SERVICE_UNAVAILABLE : Z := 503%Z.

(* ------------------------------------------------------------------ *)
(** ** class Suite *)

Record Suite := mkSuite {
  tests : list string;
  total_runtime : Q
}.

(** [Suite()] *)
Definition new_suite : Suite := {| tests := []; total_runtime := 0 |}.

(** [Suite.add_test]: append the file, add the runtime. *)
Definition add_test (s : Suite) (test_file : string) (runtime : Q) : Suite :=
  {| tests := tests s ++ [test_file]; total_runtime := total_runtime s + runtime |}.

Definition get_runtime (s : Suite) : Q := total_runtime s.
Definition get_test_count (s : Suite) : nat := length (tests s).

(** Successive [add_test] calls, one per (test_file, runtime) pair. *)
Definition add_tests (s : Suite) (l : list (string * Q)) : Suite :=
  fold_left (fun s p => add_test s p.1 p.2) l s.

(* ------------------------------------------------------------------ *)
(** ** divide_remaining_tests_among_suites *)

(** The loop body threads [suites] (updated in place through
    [current_suite]) and [suite_idx]. *)
Fixpoint divide_remaining_loop (remaining : list (string * Q))
    (suites : list Suite) (suite_idx : nat) : Res (list Suite) :=
  match remaining with
  | [] => Ok suites
  | (test_file, runtime) :: rest =>
      match suites !! suite_idx with
      | None => Err IndexError
      | Some current_suite =>
          let suites := <[suite_idx := add_test current_suite test_file runtime]> suites in
          let suite_idx := S suite_idx in
          let suite_idx := if Nat.leb (length suites) suite_idx then 0%nat else suite_idx in
          divide_remaining_loop rest suites suite_idx
      end
  end.

Definition divide_remaining_tests_among_suites (remaining_tests_runtimes : list (string * Q))
    (suites : list Suite) : Res (list Suite) :=
  divide_remaining_loop remaining_tests_runtimes suites 0.

(* ------------------------------------------------------------------ *)
(** ** divide_tests_into_suites *)

(** Python truthiness of the optional [max_suites] ([None] and [0] are
    false). *)
Definition truthy (max_suites : option Z) : bool :=
  match max_suites with
  | None => false
  | Some m => negb (Z.eqb m 0)
  end.

(** [max_suites and len(suites) >= max_suites] *)
Definition max_suites_reached (max_suites : option Z) (n : nat) : bool :=
  match max_suites with
  | None => false
  | Some m => negb (Z.eqb m 0) && Z.leb m (Z.of_nat n)
  end.

(** The [for idx, (test_file, runtime) in enumerate(tests_runtimes)] loop.
    It returns the closed suites, the current suite, and [Some idx] when
    the loop was left by [break] at index [idx]. *)
Fixpoint divide_loop (max_time_seconds : Q) (max_suites : option Z) (idx : nat)
    (tests_runtimes : list (string * Q)) (suites : list Suite) (current_suite : Suite)
    : list Suite * Suite * option nat :=
  match tests_runtimes with
  | [] => (suites, current_suite, None)
  | (test_file, runtime) :: rest =>
      if negb (Qle_bool (get_runtime current_suite + runtime) max_time_seconds) then
        if Nat.ltb 0 (get_test_count current_suite) then
          let suites := suites ++ [current_suite] in
          if max_suites_reached max_suites (length suites) then
            (suites, new_suite, Some idx)
          else
            divide_loop max_time_seconds max_suites (S idx) rest suites
              (add_test new_suite test_file runtime)
        else
          divide_loop max_time_seconds max_suites (S idx) rest suites
            (add_test current_suite test_file runtime)
      else
        divide_loop max_time_seconds max_suites (S idx) rest suites
          (add_test current_suite test_file runtime)
  end.

Definition divide_tests_into_suites (tests_runtimes : list (string * Q))
    (max_time_seconds : Q) (max_suites : option Z) : Res (list Suite) :=
  let '(suites, current_suite, stop) :=
    divide_loop max_time_seconds max_suites 0 tests_runtimes [] new_suite in
  let last_test_processed :=
    match stop with Some idx => idx | None => length tests_runtimes end in
  let suites :=
    if Nat.ltb 0 (get_test_count current_suite) then suites ++ [current_suite] else suites in
  if truthy max_suites && Nat.ltb last_test_processed (length tests_runtimes) then
    divide_remaining_tests_among_suites (drop last_test_processed tests_runtimes) suites
  else Ok suites.

(* ------------------------------------------------------------------ *)
(** ** buildscripts.util.testname *)

(** The helpers of [buildscripts/util/testname.py] that [TestStats] calls.
    That module is not part of the analysed sources; its interface is a
    class so that the aggregation is stated for every implementation, and
    [spec_testname] below gives one instance modelled from the spec.
    [split_test_hook_name] returns the (test name, hook name) pair whose
    first component the source reads with [[0]]. *)
Class Testname := {
  normalize_test_file : string -> string;
  is_resmoke_hook : string -> bool;
  split_test_hook_name : string -> string * string;
  get_short_name_from_test_file : string -> string
}.

(** Split at the first [":"], if any. *)
Fixpoint split_colon (s : string) : string * option string :=
  match s with
  | EmptyString => (EmptyString, None)
  | String c s' =>
      if Ascii.eqb c ":"%char then (EmptyString, Some s')
      else let '(a, b) := split_colon s' in (String c a, b)
  end.

(** The part after the last ["/"]. *)
Fixpoint basename_acc (s acc : string) : string :=
  match s with
  | EmptyString => acc
  | String c s' =>
      if Ascii.eqb c "/"%char then basename_acc s' EmptyString
      else basename_acc s' (acc +:+ String c EmptyString)
  end.

(** The part before the last ["."] (the whole string when there is none). *)
Fixpoint strip_ext_acc (s before cur : string) (seen_dot : bool) : string :=
  match s with
  | EmptyString => if seen_dot then before else cur
  | String c s' =>
      if Ascii.eqb c "."%char then strip_ext_acc s' (if seen_dot then before +:+ "." +:+ cur else cur) EmptyString true
      else strip_ext_acc s' before (cur +:+ String c EmptyString) seen_dot
  end.

(** Modelled from the spec: [buildscripts/util/testname.py] (not among
    the sources). Identifiers are normalized upstream; a hook's name is the
    owning test's name plus a [":"]-separated suffix; the short name of a
    test file is its identifier minus the directory and the extension. *)
#[export] Instance spec_testname : Testname := {|
  normalize_test_file := fun s => s;
  is_resmoke_hook := fun s => match (split_colon s).2 with Some _ => true | None => false end;
  split_test_hook_name := fun s =>
    ((split_colon s).1, match (split_colon s).2 with Some h => h | None => EmptyString end);
  get_short_name_from_test_file := fun s => strip_ext_acc (basename_acc s EmptyString) EmptyString EmptyString false
|}.

(* ------------------------------------------------------------------ *)
(** ** class TestStats *)

(** The value dict [{"duration": ..., "num_run": ...}]. *)
Record RuntimeInfo := mkRuntimeInfo {
  duration : Q;
  num_run : Z
}.

(** A [defaultdict(dict)] keyed by test name, in insertion order; [None]
    is the empty dict. *)
Abbreviation RuntimeDict := (list (string * option RuntimeInfo)).

Fixpoint dict_lookup (d : RuntimeDict) (k : string) : option (option RuntimeInfo) :=
  match d with
  | [] => None
  | (k', v) :: d' => if String.eqb k k' then Some v else dict_lookup d' k
  end.

(** [d[k] = v]: an existing key keeps its position, a new key goes last. *)
Fixpoint dict_set (d : RuntimeDict) (k : string) (v : option RuntimeInfo) : RuntimeDict :=
  match d with
  | [] => [(k, v)]
  | (k', v') :: d' => if String.eqb k k' then (k', v) :: d' else (k', v') :: dict_set d' k v
  end.

(** [d[k]] on a [defaultdict(dict)]: a missing key is inserted with [{}]. *)
Definition defaultdict_getitem (d : RuntimeDict) (k : string) : RuntimeDict * option RuntimeInfo :=
  match dict_lookup d k with
  | Some v => (d, v)
  | None => (d ++ [(k, None)], None)
  end.

Record TestStatsDoc := mkTestStatsDoc {
  test_file : string;
  avg_duration_pass : Q;
  num_pass : Z
}.

Record TestStats := mkTestStats {
  runtime_by_test : RuntimeDict;
  hook_runtime_by_test : RuntimeDict
}.

(** [TestStats._average] *)
Definition _average (value_a : Q) (num_a : Z) (value_b : Q) (num_b : Z) : Res Q :=
  if Z.eqb (num_a + num_b) 0 then Err ZeroDivisionError
  else Ok ((value_a * inject_Z num_a + value_b * inject_Z num_b) / inject_Z (num_a + num_b)).

(** [TestStats._add_runtime_info]: [runtime_info] is the dict object stored
    under [test_name], so its updates are writes to [runtime_dict]. *)
Definition _add_runtime_info (runtime_dict : RuntimeDict) (test_name : string)
    (duration_ : Q) (num_run_ : Z) : Res RuntimeDict :=
  let '(runtime_dict, runtime_info) := defaultdict_getitem runtime_dict test_name in
  match runtime_info with
  | None => Ok (dict_set runtime_dict test_name (Some (mkRuntimeInfo duration_ num_run_)))
  | Some info =>
      avg ← _average (duration info) (num_run info) duration_ num_run_;
      Ok (dict_set runtime_dict test_name (Some (mkRuntimeInfo avg (num_run info + num_run_))))
  end.

Section TestStatsOps.
Context {TN : Testname}.

Definition _add_test_stats (ts : TestStats) (test_file_ : string) (duration_ : Q) (num_run_ : Z)
    : Res TestStats :=
  d ← _add_runtime_info (runtime_by_test ts) test_file_ duration_ num_run_;
  Ok (mkTestStats d (hook_runtime_by_test ts)).

Definition _add_test_hook_stats (ts : TestStats) (test_file_ : string) (duration_ : Q) (num_run_ : Z)
    : Res TestStats :=
  let test_name := (split_test_hook_name test_file_).1 in
  d ← _add_runtime_info (hook_runtime_by_test ts) test_name duration_ num_run_;
  Ok (mkTestStats (runtime_by_test ts) d).

Definition _add_stats (ts : TestStats) (doc : TestStatsDoc) : Res TestStats :=
  let test_file_ := normalize_test_file (test_file doc) in
  let duration_ := avg_duration_pass doc in
  let num_run_ := num_pass doc in
  if is_resmoke_hook test_file_ then _add_test_hook_stats ts test_file_ duration_ num_run_
  else _add_test_stats ts test_file_ duration_ num_run_.

Fixpoint add_all_stats (ts : TestStats) (docs : list TestStatsDoc) : Res TestStats :=
  match docs with
  | [] => Ok ts
  | doc :: docs' => ts' ← _add_stats ts doc; add_all_stats ts' docs'
  end.

(** [TestStats(evg_test_stats_results)] *)
Definition TestStats_init (evg_test_stats_results : list TestStatsDoc) : Res TestStats :=
  add_all_stats (mkTestStats [] []) evg_test_stats_results.

End TestStatsOps.

(** [sorted(tests, key=lambda x: x[1], reverse=True)]: Python's sort is
    stable also with [reverse=True], so the result is the stable sort by
    decreasing runtime. It is written as an insertion sort: [x], later in
    the input than every element of [l], goes after those with a runtime
    at least its own. *)
Fixpoint insert_desc (x : string * Q) (l : list (string * Q)) : list (string * Q) :=
  match l with
  | [] => [x]
  | y :: l' => if Qle_bool x.2 y.2 then y :: insert_desc x l' else x :: l
  end.

Definition sort_by_runtime_desc (l : list (string * Q)) : list (string * Q) :=
  fold_left (fun acc x => insert_desc x acc) l [].

Section TestStatsRuntimes.
Context {TN : Testname}.

(** The [for test_file, runtime_info in self._runtime_by_test.items()]
    loop; the hook dict is threaded since [defaultdict] inserts into it. *)
Fixpoint collect_runtimes (items : RuntimeDict) (hooks : RuntimeDict)
    : Res (list (string * Q) * RuntimeDict) :=
  match items with
  | [] => Ok ([], hooks)
  | (test_file_, runtime_info) :: items' =>
      match runtime_info with
      | None => Err KeyError
      | Some info =>
          let duration_ := duration info in
          let test_name := get_short_name_from_test_file test_file_ in
          let '(hooks, hook_runtime_info) := defaultdict_getitem hooks test_name in
          let duration_ :=
            match hook_runtime_info with
            | Some h => duration_ + duration h
            | None => duration_
            end in
          '(tests_, hooks) ← collect_runtimes items' hooks;
          Ok ((test_file_, duration_) :: tests_, hooks)
      end
  end.

(** [TestStats.get_tests_runtimes]: the sorted list and the updated stats. *)
Definition get_tests_runtimes (ts : TestStats) : Res (list (string * Q) * TestStats) :=
  '(tests_, hooks) ← collect_runtimes (runtime_by_test ts) (hook_runtime_by_test ts);
  Ok (sort_by_runtime_desc tests_, mkTestStats (runtime_by_test ts) hooks).

End TestStatsRuntimes.

(* ------------------------------------------------------------------ *)
(** ** class Main *)

(** Python's [l[i]] for an int index: negative indices count from the end. *)
Definition py_index {A} (l : list A) (i : Z) : option nat :=
  let n := Z.of_nat (length l) in
  if Z.leb 0 i && Z.ltb i n then Some (Z.to_nat i)
  else if Z.leb (- n) i && Z.ltb i 0 then Some (Z.to_nat (n + i))
  else None.

(** The [for idx, test_file in enumerate(tests)] loop of
    [calculate_fallback_suites]; [%] on ints is [Z.modulo] (both floor). *)
Fixpoint fallback_loop (num_suites : Z) (idx : Z) (tests_ : list string) (suites : list Suite)
    : Res (list Suite) :=
  match tests_ with
  | [] => Ok suites
  | test_file_ :: rest =>
      if Z.eqb num_suites 0 then Err ZeroDivisionError
      else match py_index suites (idx mod num_suites) with
        | None => Err IndexError
        | Some i =>
            match suites !! i with
            | None => Err IndexError
            | Some s => fallback_loop num_suites (idx + 1) rest (<[i := add_test s test_file_ 0]> suites)
            end
        end
  end.

(** [Main.calculate_fallback_suites]; [tests_] is what [self.list_tests()]
    returns and [num_suites] is [config_options.fallback_num_sub_suites]. *)
Definition calculate_fallback_suites (num_suites : Z) (tests_ : list string) : Res (list Suite) :=
  fallback_loop num_suites 0 tests_ (replicate (Z.to_nat num_suites) new_suite).

Section MainOps.
Context {TN : Testname}.

(** [Main.calculate_suites_from_evg_stats]: the suites and the new value of
    [self.test_list]. *)
Definition calculate_suites_from_evg_stats (data : list TestStatsDoc) (execution_time_secs : Q)
    (max_sub_suites : option Z) : Res (list Suite * list string) :=
  test_stats ← TestStats_init data;
  '(tests_runtimes, _) ← get_tests_runtimes test_stats;
  let test_list := map fst tests_runtimes in
  suites ← divide_tests_into_suites tests_runtimes execution_time_secs max_sub_suites;
  Ok (suites, test_list).

(** [Main.calculate_suites]. [evg_stats] is the outcome of
    [self.get_evg_stats(...)] (the Evergreen API call, which may raise);
    [suite_tests] is [self.list_tests()]; [test_list] is [self.test_list]
    on entry. Only [requests.HTTPError] is caught. *)
Definition calculate_suites (evg_stats : Res (list TestStatsDoc)) (execution_time_minutes : Z)
    (max_sub_suites : option Z) (fallback_num_sub_suites : Z) (suite_tests : list string)
    (test_list : list string) : Res (list Suite * list string) :=
  match (data ← evg_stats;
         calculate_suites_from_evg_stats data (inject_Z (execution_time_minutes * 60)) max_sub_suites) with
  | Ok r => Ok r
  | Err (HTTPError code) =>
      if Z.eqb code SERVICE_UNAVAILABLE then
        suites ← calculate_fallback_suites fallback_num_sub_suites suite_tests;
        Ok (suites, test_list)
      else Err (HTTPError code)
  | Err e => Err e
  end.

End MainOps.

(* ------------------------------------------------------------------ *)
(** ** Vocabulary of the properties *)

(** The suite built by adding the pairs of [seg] to a fresh [Suite()]. *)
Definition suite_of (seg : list (string * Q)) : Suite := add_tests new_suite seg.

(** Sum of the runtimes of [seg], as [Suite.total_runtime] accumulates it. *)
Definition sum_runtime (seg : list (string * Q)) : Q :=
  fold_left (fun acc p => acc + p.2) seg 0.

(** The elements of [l] that strict round-robin over [n] bins, the first
    element of [l] having number [off], sends to bin [j]: element number
    [i] goes to bin [i mod n]. *)
Fixpoint rr_share {A} (n j off : nat) (l : list A) : list A :=
  match l with
  | [] => []
  | x :: l' => if Nat.eqb (off mod n) j then x :: rr_share n j (S off) l' else rr_share n j (S off) l'
  end.

(** Every test of a bin after its first was added while the bin's runtime
    plus the test's runtime was at most [max_time_seconds]. *)
Definition later_tests_fit (max_time_seconds : Q) (seg : list (string * Q)) : Prop :=
  forall pre x post, seg = pre ++ x :: post -> pre <> [] -> sum_runtime pre + x.2 <= max_time_seconds.

(** The value [d[k]] reads on a [defaultdict(dict)] ([None] for [{}]). *)
Definition dict_value (d : RuntimeDict) (k : string) : option RuntimeInfo :=
  match dict_lookup d k with Some v => v | None => None end.

(** Names in order of first appearance: a name is appended the first time
    it is seen. *)
Definition first_seen (acc : list string) (f : string) : list string :=
  if bool_decide (f ∈ acc) then acc else acc ++ [f].

Definition encounter_order (names : list string) : list string :=
  fold_left first_seen names [].

Section Vocabulary.
Context {TN : Testname}.

(** The normalized file names of the regular (non-hook) records, in
    ingestion order. *)
Definition regular_test_names (docs : list TestStatsDoc) : list string :=
  List.filter (fun f => negb (is_resmoke_hook f)) (map (fun doc => normalize_test_file (test_file doc)) docs).

End Vocabulary.

(** Every stored runtime info counts at least one run. *)
Definition runs_positive (d : RuntimeDict) : Prop :=
  forall k info, In (k, Some info) d -> (1 <= num_run info)%Z.

(** [r] either succeeds or raises an exception satisfying [P]. *)
Definition raises_only {A} (P : PyExc -> Prop) (r : Res A) : Prop :=
  match r with Ok _ => True | Err e => P e end.


(** Each segment of the first pass was closed because the first test of
    the next one did not fit beside it. *)
Definition closed_when_full (max_time_seconds : Q) (segs : list (list (string * Q))) : Prop :=
  forall i a x b, segs !! i = Some a -> segs !! S i = Some (x :: b) ->
    max_time_seconds < sum_runtime a + x.2.

(** The current segment was opened by a test that did not fit beside the
    last closed segment. *)
Definition opened_when_full (max_time_seconds : Q) (segs : list (list (string * Q)))
    (seg_cur : list (string * Q)) : Prop :=
  forall a, last segs = Some a ->
    exists x b, seg_cur = x :: b /\ max_time_seconds < sum_runtime a + x.2.

(** [d[k]["num_run"]], 0 when [d] has no entry for [k]. *)
Definition num_run_of (d : RuntimeDict) (k : string) : Z :=
  match dict_value d k with Some info => num_run info | None => 0%Z end.


(** The suites of the first pass, as segments of the input: the closed
    segments, then the current one when it holds a test
    ([if current_suite.get_test_count() > 0: suites.append(current_suite)]). *)
Definition first_pass_bins (segs : list (list (string * Q))) (seg_cur : list (string * Q))
    : list (list (string * Q)) :=
  match seg_cur with [] => segs | _ :: _ => segs ++ [seg_cur] end.

(** The tests handed out round-robin: [tests_runtimes[last_test_processed:]]
    after a [break] at [idx], none when the loop ran to the end. *)
Definition leftover_tests (tests_runtimes : list (string * Q)) (stop : option nat)
    : list (string * Q) :=
  match stop with Some idx => drop idx tests_runtimes | None => [] end.

Section VocabularyRuns.
Context {TN : Testname}.

(** Total [num_pass] of the samples of the regular test [k]. *)
Definition test_runs (docs : list TestStatsDoc) (k : string) : Z :=
  fold_right (fun doc acc =>
    let f := normalize_test_file (test_file doc) in
    ((if negb (is_resmoke_hook f) && String.eqb f k then num_pass doc else 0) + acc)%Z) 0%Z docs.

(** Total [num_pass] of the hook samples whose test name is [k]. *)
Definition hook_runs (docs : list TestStatsDoc) (k : string) : Z :=
  fold_right (fun doc acc =>
    let f := normalize_test_file (test_file doc) in
    ((if is_resmoke_hook f && String.eqb (split_test_hook_name f).1 k then num_pass doc else 0)
     + acc)%Z) 0%Z docs.

End VocabularyRuns.

(* ------------------------------------------------------------------ *)
(** ** Sanity checks on small inputs *)

Example divide_abcd :
  map tests <$>
    divide_tests_into_suites [("A", 100); ("B", 100); ("C", 100); ("D", 100)] 150 (Some 2%Z)
  = Ok [["A"; "C"]; ["B"; "D"]].
Proof. reflexivity. Qed.

Example fallback_ten :
  map tests <$> calculate_fallback_suites 3 ["t0"; "t1"; "t2"; "t3"; "t4"; "t5"; "t6"; "t7"; "t8"; "t9"]
  = Ok [["t0"; "t3"; "t6"; "t9"]; ["t1"; "t4"; "t7"]; ["t2"; "t5"; "t8"]].
Proof. reflexivity. Qed.

Example short_name_foo : get_short_name_from_test_file "jstests/core/foo.js" = "foo".
Proof. reflexivity. Qed.

Example hook_runtimes :
  (fun r => map (fun p => (p.1, Qred p.2)) r.1) <$>
    (ts ← TestStats_init [mkTestStatsDoc "jstests/core/foo.js" 5 1;
                           mkTestStatsDoc "jstests/core/bar.js" 6 2;
                           mkTestStatsDoc "foo:ValidateCollections" 2 1];
     get_tests_runtimes ts)
  = Ok [("jstests/core/foo.js", 7); ("jstests/core/bar.js", 6)].
Proof. reflexivity. Qed.

(* ================================================================== *)
(** * Properties *)

(* ------------------------------------------------------------------ *)
(** ** Suites built by add_test *)

Lemma add_tests_app s l1 l2 : add_tests s (l1 ++ l2) = add_tests (add_tests s l1) l2.
Proof. unfold add_tests. by rewrite fold_left_app. Qed.

Lemma tests_add_tests s l : tests (add_tests s l) = tests s ++ map fst l.
Proof.
  revert s. induction l as [|[f r] l IH]; intros s; simpl.
  - by rewrite app_nil_r.
  - rewrite IH. simpl. by rewrite <- app_assoc.
Qed.

Lemma total_add_tests s l :
  total_runtime (add_tests s l) = fold_left (fun acc p => acc + p.2) l (total_runtime s).
Proof. revert s. induction l as [|[f r] l IH]; intros s; simpl; [done | apply IH]. Qed.

Lemma tests_suite_of seg : tests (suite_of seg) = map fst seg.
Proof. unfold suite_of. by rewrite tests_add_tests. Qed.

Lemma total_suite_of seg : total_runtime (suite_of seg) = sum_runtime seg.
Proof. unfold suite_of. by rewrite total_add_tests. Qed.

Lemma suite_of_snoc seg f r : suite_of (seg ++ [(f, r)]) = add_test (suite_of seg) f r.
Proof. unfold suite_of. by rewrite add_tests_app. Qed.

Lemma concat_tests_suite_of segs :
  concat (map tests (map suite_of segs)) = map fst (concat segs).
Proof.
  induction segs as [|seg segs IH]; simpl; [done |].
  by rewrite tests_suite_of, IH, map_app.
Qed.

(* ------------------------------------------------------------------ *)
(** ** The budget condition *)

Lemma later_tests_fit_nil mt : later_tests_fit mt [].
Proof. intros pre x post H. destruct pre; discriminate. Qed.

Lemma later_tests_fit_snoc mt seg f r :
  later_tests_fit mt seg -> (seg = [] \/ sum_runtime seg + r <= mt) ->
  later_tests_fit mt (seg ++ [(f, r)]).
Proof.
  intros Hfit Hnew pre x post Heq Hpre.
  destruct post as [|y post'] using rev_ind.
  - apply app_inj_tail in Heq as [-> <-].
    destruct Hnew as [-> | Hle]; [done | exact Hle].
  - clear IHpost'. rewrite app_comm_cons, app_assoc in Heq.
    apply app_inj_tail in Heq as [Heq _].
    exact (Hfit pre x post' Heq Hpre).
Qed.

Lemma later_tests_fit_single mt x : later_tests_fit mt [x].
Proof.
  destruct x as [f r].
  apply (later_tests_fit_snoc mt [] f r (later_tests_fit_nil mt)). by left.
Qed.

(* ------------------------------------------------------------------ *)
(** ** The first pass of divide_tests_into_suites *)

(** The state of the loop is described by segments of the input: the
    closed suites are [map suite_of segs] and the current suite is
    [suite_of seg_cur]. The loop keeps the segments a split of the
    consumed input, keeps closed segments non-empty and keeps the budget
    condition; on [break] it consumed nothing of the current test. *)
Lemma divide_loop_spec mt ms ts : forall idx segs seg_cur,
  Forall (fun seg => seg <> []) segs ->
  match divide_loop mt ms idx ts (map suite_of segs) (suite_of seg_cur) with
  | (suites', cur', stop) =>
    exists segs' seg',
      suites' = map suite_of segs' /\ cur' = suite_of seg' /\
      Forall (fun seg => seg <> []) segs' /\
      (Forall (later_tests_fit mt) segs -> later_tests_fit mt seg_cur ->
       Forall (later_tests_fit mt) segs' /\ later_tests_fit mt seg') /\
      match stop with
      | None => concat segs' ++ seg' = concat segs ++ seg_cur ++ ts
      | Some k =>
          (idx <= k < idx + length ts)%nat /\ seg' = [] /\ segs' <> [] /\
          max_suites_reached ms (length segs') = true /\
          concat segs' ++ drop (k - idx) ts = concat segs ++ seg_cur ++ ts
      end
  end.
Proof.
  induction ts as [|[f r] ts IH]; intros idx segs seg_cur Hne; simpl.
  - exists segs, seg_cur. rewrite app_nil_r. tauto.
  - unfold get_runtime, get_test_count.
    rewrite total_suite_of, tests_suite_of, length_map.
    destruct (Qle_bool (sum_runtime seg_cur + r) mt) eqn:Hq; simpl.
    + (* the test fits: it joins the current suite *)
      rewrite <- suite_of_snoc.
      specialize (IH (S idx) segs (seg_cur ++ [(f, r)]) Hne).
      destruct (divide_loop mt ms (S idx) ts (map suite_of segs) (suite_of (seg_cur ++ [(f, r)])))
        as [[suites' cur'] stop].
      destruct IH as (segs' & seg' & -> & -> & Hne' & Hfit & Hstop).
      exists segs', seg'. do 3 (split; [done |]). split.
      * intros Hs Hc. apply Hfit; [done |]. apply later_tests_fit_snoc; [done |].
        right. by apply Qle_bool_iff.
      * destruct stop as [k|].
        -- destruct Hstop as (Hk & -> & Hsne & Hr & Hcat).
           split; [lia |]. do 3 (split; [done |]).
           replace (k - idx)%nat with (S (k - S idx)) by lia. simpl.
           rewrite Hcat, <- app_assoc. done.
        -- rewrite Hstop, <- app_assoc. done.
    + destruct (Nat.ltb 0 (length seg_cur)) eqn:Hc.
      * (* the current suite is closed *)
        apply Nat.ltb_lt in Hc.
        assert (Hcur : seg_cur <> []) by (intros ->; simpl in Hc; lia).
        replace (map suite_of segs ++ [suite_of seg_cur]) with (map suite_of (segs ++ [seg_cur]))
          by (by rewrite map_app).
        rewrite length_map.
        destruct (max_suites_reached ms (length (segs ++ [seg_cur]))) eqn:Hr.
        -- exists (segs ++ [seg_cur]), []. do 2 (split; [done |]).
           split; [apply Forall_app; split; [done | by constructor] |].
           split; [intros Hs Hcf; split; [apply Forall_app; split; [done | by constructor] | apply later_tests_fit_nil] |].
           split; [lia |]. split; [done |]. split; [by destruct segs |]. split; [done |].
           rewrite Nat.sub_diag, concat_app. simpl. rewrite !app_nil_r, <- app_assoc. done.
        -- change (add_test new_suite f r) with (suite_of [(f, r)]).
           assert (Hne2 : Forall (fun seg => seg <> []) (segs ++ [seg_cur]))
             by (apply Forall_app; split; [done | by constructor]).
           specialize (IH (S idx) (segs ++ [seg_cur]) [(f, r)] Hne2).
           destruct (divide_loop mt ms (S idx) ts (map suite_of (segs ++ [seg_cur])) (suite_of [(f, r)]))
             as [[suites' cur'] stop].
           destruct IH as (segs' & seg' & -> & -> & Hne' & Hfit & Hstop).
           exists segs', seg'. do 3 (split; [done |]). split.
           ++ intros Hs Hcf. apply Hfit; [apply Forall_app; split; [done | by constructor] |].
              apply later_tests_fit_single.
           ++ destruct stop as [k|].
              ** destruct Hstop as (Hk & -> & Hsne & Hr' & Hcat).
                 split; [lia |]. do 3 (split; [done |]).
                 replace (k - idx)%nat with (S (k - S idx)) by lia. simpl.
                 rewrite Hcat, concat_app. simpl. rewrite app_nil_r, <- !app_assoc. done.
              ** rewrite Hstop, concat_app. simpl. rewrite app_nil_r, <- !app_assoc. done.
      * (* the current suite is empty: the test starts it *)
        apply Nat.ltb_ge in Hc. destruct seg_cur; [| simpl in Hc; lia].
        change (add_test (suite_of []) f r) with (suite_of [(f, r)]).
        specialize (IH (S idx) segs [(f, r)] Hne).
        destruct (divide_loop mt ms (S idx) ts (map suite_of segs) (suite_of [(f, r)]))
          as [[suites' cur'] stop].
        destruct IH as (segs' & seg' & -> & -> & Hne' & Hfit & Hstop).
        exists segs', seg'. do 3 (split; [done |]). split.
        -- intros Hs _. apply Hfit; [done | apply later_tests_fit_single].
        -- destruct stop as [k|].
           ++ destruct Hstop as (Hk & -> & Hsne & Hr & Hcat).
              split; [lia |]. do 3 (split; [done |]).
              replace (k - idx)%nat with (S (k - S idx)) by lia. simpl. done.
           ++ done.
Qed.

(* ------------------------------------------------------------------ *)
(** ** divide_remaining_tests_among_suites is round-robin *)

(** [suite_idx += 1; if suite_idx >= len(suites): suite_idx = 0] keeps
    [suite_idx] equal to the number of tests handed out, modulo [n]. *)
Lemma next_suite_idx n a :
  (0 < n)%nat -> (if Nat.leb n (S (a mod n)) then 0%nat else S (a mod n)) = (S a mod n)%nat.
Proof.
  intros Hn. assert (Hn0 : n <> 0%nat) by lia.
  pose proof (Nat.mod_upper_bound a n Hn0) as Hb.
  pose proof (Nat.div_mod a n Hn0) as Hd.
  destruct (Nat.leb_spec n (S (a mod n))) as [Hle|Hlt].
  - apply (Nat.mod_unique (S a) n (S (a / n)) 0); [lia |].
    rewrite Nat.mul_succ_r. lia.
  - apply (Nat.mod_unique (S a) n (a / n) (S (a mod n))); lia.
Qed.

Lemma divide_remaining_loop_spec n rem : forall (suites : list Suite) off,
  length suites = n -> (0 < n)%nat ->
  exists res, divide_remaining_loop rem suites (off mod n) = Ok res /\ length res = n /\
    forall j s, suites !! j = Some s -> res !! j = Some (add_tests s (rr_share n j off rem)).
Proof.
  induction rem as [|[f r] rem IH]; intros suites off Hlen Hn; simpl.
  - exists suites. do 2 (split; [done |]). intros j s Hj. by rewrite Hj.
  - assert (Hi : (off mod n < length suites)%nat)
      by (rewrite Hlen; apply Nat.mod_upper_bound; lia).
    destruct (lookup_lt_is_Some_2 suites (off mod n) Hi) as [s0 Hs0]. rewrite Hs0.
    rewrite length_insert, Hlen, next_suite_idx by done.
    destruct (IH (<[off mod n := add_test s0 f r]> suites) (S off))
      as (res & Hres & Hlen' & Hpt); [by rewrite length_insert | done |].
    exists res. do 2 (split; [done |]).
    intros j s Hj. destruct (Nat.eq_dec (off mod n) j) as [<-|Hne].
    + rewrite Nat.eqb_refl. rewrite Hs0 in Hj. injection Hj as <-.
      apply Hpt. by apply list_lookup_insert_eq.
    + apply Nat.eqb_neq in Hne as Hb. rewrite Hb. apply Hpt.
      by rewrite list_lookup_insert_ne.
Qed.

Lemma concat_tests_insert (suites : list Suite) i s f r :
  suites !! i = Some s ->
  concat (map tests (<[i := add_test s f r]> suites)) ≡ₚ concat (map tests suites) ++ [f].
Proof.
  revert i. induction suites as [|s' suites IH]; intros [|i] Hs; try discriminate; simpl in *.
  - injection Hs as ->. simpl. rewrite <- !app_assoc.
    apply Permutation_app_head, Permutation_app_comm.
  - rewrite <- app_assoc. apply Permutation_app_head. by apply IH.
Qed.

Lemma divide_remaining_loop_perm rem : forall suites i res,
  divide_remaining_loop rem suites i = Ok res ->
  concat (map tests res) ≡ₚ concat (map tests suites) ++ map fst rem.
Proof.
  induction rem as [|[f r] rem IH]; intros suites i res H; simpl in *.
  - injection H as <-. by rewrite app_nil_r.
  - destruct (suites !! i) as [s|] eqn:Hs; [| discriminate].
    rewrite (IH _ _ _ H), concat_tests_insert by done.
    by rewrite <- app_assoc.
Qed.

(* ------------------------------------------------------------------ *)
(** ** The whole of divide_tests_into_suites *)

Lemma lookup_map {A B} (f : A -> B) (l : list A) i : map f l !! i = f <$> l !! i.
Proof. revert i. induction l as [|x l IH]; intros [|i]; simpl; auto. Qed.

Lemma max_suites_reached_truthy ms n : max_suites_reached ms n = true -> truthy ms = true.
Proof. destruct ms as [m|]; simpl; [| done]. by intros [? _]%andb_prop. Qed.

Lemma rr_share_nil {A} n j off : @rr_share A n j off [] = [].
Proof. done. Qed.

(** The output is the first-pass segments, each topped up with its
    round-robin share of the leftover tests (none when the loop ran to
    the end). *)
Lemma divide_spec ts mt ms :
  exists segs leftovers res,
    divide_tests_into_suites ts mt ms = Ok res /\
    concat segs ++ leftovers = ts /\
    Forall (fun seg => seg <> []) segs /\ Forall (later_tests_fit mt) segs /\
    length res = length segs /\
    (forall j seg, segs !! j = Some seg ->
       res !! j = Some (add_tests (suite_of seg) (rr_share (length segs) j 0 leftovers))) /\
    concat (map tests res) ≡ₚ map fst ts.
Proof.
  unfold divide_tests_into_suites.
  pose proof (divide_loop_spec mt ms ts 0 [] [] (List.Forall_nil _)) as Hl.
  change (map suite_of []) with (@nil Suite) in Hl.
  change (suite_of []) with new_suite in Hl.
  destruct (divide_loop mt ms 0 ts [] new_suite) as [[suites cur] stop].
  destruct Hl as (segs & seg & -> & -> & Hne & Hfit & Hstop).
  destruct (Hfit (List.Forall_nil _) (later_tests_fit_nil mt)) as [Hfs Hfc].
  unfold get_test_count. rewrite tests_suite_of, length_map.
  destruct stop as [k|].
  - destruct Hstop as (Hk & -> & Hsne & Hr & Hcat).
    simpl in Hcat. rewrite Nat.sub_0_r in Hcat. simpl.
    rewrite (max_suites_reached_truthy _ _ Hr).
    assert (Hlt : Nat.ltb k (length ts) = true) by (apply Nat.ltb_lt; lia).
    rewrite Hlt. simpl.
    assert (Hn : (0 < length segs)%nat) by (destruct segs; [done | simpl; lia]).
    destruct (divide_remaining_loop_spec (length segs) (drop k ts) (map suite_of segs) 0)
      as (res & Hres & Hlen & Hpt); [by rewrite length_map | done |].
    rewrite Nat.Div0.mod_0_l in Hres.
    exists segs, (drop k ts), res.
    split; [done |]. do 4 (split; [done |]). split.
    + intros j seg Hj. apply Hpt. by rewrite lookup_map, Hj.
    + rewrite (divide_remaining_loop_perm _ _ _ _ Hres), concat_tests_suite_of, <- map_app.
      by rewrite Hcat.
  - simpl in Hstop.
    rewrite Nat.ltb_irrefl, andb_false_r.
    destruct seg as [|x seg'] eqn:Hseg; simpl.
    + exists segs, [], (map suite_of segs). rewrite app_nil_r in Hstop.
      split; [done |]. split; [by rewrite app_nil_r |]. do 2 (split; [done |]).
      rewrite length_map. split; [done |]. split.
      * intros j s Hj. by rewrite lookup_map, Hj.
      * by rewrite concat_tests_suite_of, Hstop.
    + rewrite <- Hseg. exists (segs ++ [seg]), [], (map suite_of (segs ++ [seg])).
      split; [by rewrite map_app |]. split; [by rewrite app_nil_r, concat_app; simpl; rewrite app_nil_r, Hseg |].
      split. { apply Forall_app. split; [done |]. apply Forall_singleton. by rewrite Hseg. }
      split. { apply Forall_app. split; [done |]. apply Forall_singleton. by rewrite Hseg. }
      rewrite length_map. split; [done |]. split.
      * intros j s Hj. by rewrite lookup_map, Hj.
      * rewrite concat_tests_suite_of, concat_app. simpl. rewrite app_nil_r, Hseg. by rewrite Hstop.
Qed.

(** The same, with the segments read off the first pass itself: the
    closed suites and the current suite of [divide_loop] are those of the
    segments, and the leftovers are the tests from the [break] index on. *)
Lemma divide_first_pass ts mt ms :
  exists segs seg_cur stop res,
    divide_loop mt ms 0 ts [] new_suite = (map suite_of segs, suite_of seg_cur, stop) /\
    divide_tests_into_suites ts mt ms = Ok res /\
    concat (first_pass_bins segs seg_cur) ++ leftover_tests ts stop = ts /\
    Forall (fun seg => seg <> []) (first_pass_bins segs seg_cur) /\
    Forall (later_tests_fit mt) (first_pass_bins segs seg_cur) /\
    length res = length (first_pass_bins segs seg_cur) /\
    (forall j seg, first_pass_bins segs seg_cur !! j = Some seg ->
       res !! j = Some (add_tests (suite_of seg)
                          (rr_share (length (first_pass_bins segs seg_cur)) j 0 (leftover_tests ts stop)))).
Proof.
  unfold divide_tests_into_suites.
  pose proof (divide_loop_spec mt ms ts 0 [] [] (List.Forall_nil _)) as Hl.
  change (map suite_of []) with (@nil Suite) in Hl.
  change (suite_of []) with new_suite in Hl.
  destruct (divide_loop mt ms 0 ts [] new_suite) as [[suites cur] stop].
  destruct Hl as (segs & seg & -> & -> & Hne & Hfit & Hstop).
  destruct (Hfit (List.Forall_nil _) (later_tests_fit_nil mt)) as [Hfs Hfc].
  unfold get_test_count. rewrite tests_suite_of, length_map.
  destruct stop as [k|].
  - destruct Hstop as (Hk & -> & Hsne & Hr & Hcat).
    simpl in Hcat. rewrite Nat.sub_0_r in Hcat. simpl.
    rewrite (max_suites_reached_truthy _ _ Hr).
    assert (Hlt : Nat.ltb k (length ts) = true) by (apply Nat.ltb_lt; lia).
    rewrite Hlt. simpl.
    assert (Hn : (0 < length segs)%nat) by (destruct segs; [done | simpl; lia]).
    destruct (divide_remaining_loop_spec (length segs) (drop k ts) (map suite_of segs) 0)
      as (res & Hres & Hlen & Hpt); [by rewrite length_map | done |].
    rewrite Nat.Div0.mod_0_l in Hres.
    exists segs, [], (Some k), res. simpl.
    split; [done |]. split; [done |]. do 3 (split; [done |]). split; [done |].
    intros j seg Hj. apply Hpt. by rewrite lookup_map, Hj.
  - simpl in Hstop.
    rewrite Nat.ltb_irrefl, andb_false_r.
    exists segs, seg, None.
    destruct seg as [|x seg'] eqn:Hseg; simpl.
    + exists (map suite_of segs). rewrite app_nil_r in Hstop.
      split; [done |]. split; [done |]. split; [by rewrite app_nil_r |].
      do 2 (split; [done |]). rewrite length_map. split; [done |].
      intros j s Hj. by rewrite lookup_map, Hj.
    + rewrite <- Hseg. exists (map suite_of (segs ++ [seg])).
      split; [by rewrite Hseg |]. split; [by rewrite map_app |].
      split; [by rewrite app_nil_r, concat_app; simpl; rewrite app_nil_r, Hseg |].
      split. { apply Forall_app. split; [done |]. apply Forall_singleton. by rewrite Hseg. }
      split. { apply Forall_app. split; [done |]. apply Forall_singleton. by rewrite Hseg. }
      rewrite length_map. split; [done |].
      intros j s Hj. by rewrite lookup_map, Hj.
Qed.

(* ------------------------------------------------------------------ *)
(** ** Oversized tests *)

Lemma fold_runtime_ge (l : list (string * Q)) :
  Forall (fun p => 0 <= p.2) l -> forall acc, acc <= fold_left (fun acc p => acc + p.2) l acc.
Proof.
  induction l as [|p l IH]; intros Hl acc; simpl; [apply Qle_refl |].
  inversion Hl as [|? ? Hp Hl']; subst.
  apply Qle_trans with (acc + p.2); [lra | by apply IH].
Qed.

Lemma sum_runtime_nonneg seg : Forall (fun p => 0 <= p.2) seg -> 0 <= sum_runtime seg.
Proof. intros H. apply (fold_runtime_ge seg H 0). Qed.

(** With non-negative runtimes, a segment satisfying the budget condition
    holds a test over the budget only as its single test. *)
Lemma oversized_alone mt seg x :
  Forall (fun p => 0 <= p.2) seg -> later_tests_fit mt seg ->
  In x seg -> mt < x.2 -> seg = [x].
Proof.
  intros Hnn Hfit Hin Hbig.
  destruct (in_split x seg Hin) as (pre & post & Heq).
  destruct pre as [|p pre].
  - destruct post as [|y post]; [by rewrite Heq |].
    exfalso. specialize (Hfit [x] y post).
    rewrite Heq in Hnn. inversion Hnn as [|? ? Hx Hnn']; subst.
    inversion Hnn' as [|? ? Hy _]; subst.
    assert (Hle : sum_runtime [x] + y.2 <= mt) by (apply Hfit; done).
    unfold sum_runtime in Hle. simpl in Hle. lra.
  - exfalso.
    assert (Hle : sum_runtime (p :: pre) + x.2 <= mt) by (apply (Hfit _ x post); done).
    assert (Hs : 0 <= sum_runtime (p :: pre)).
    { apply sum_runtime_nonneg. rewrite Heq in Hnn. by apply Forall_app in Hnn as [? _]. }
    lra.
Qed.

(* ------------------------------------------------------------------ *)
(** ** Claims about divide_tests_into_suites *)

(** C1: for every list of (test, runtime) pairs, every budget and every
    optional [max_suites], [divide_tests_into_suites] returns suites whose
    tests, taken together, are a permutation of the input tests: no test is
    dropped and none is duplicated, also when the [max_suites] early stop
    hands the remaining tests out round-robin. *)
Theorem divide_tests_into_suites_permutation (ts : list (string * Q)) (mt : Q) (ms : option Z) :
  exists res, divide_tests_into_suites ts mt ms = Ok res /\ concat (map tests res) ≡ₚ map fst ts.
Proof.
  destruct (divide_spec ts mt ms) as (segs & leftovers & res & Hres & _ & _ & _ & _ & _ & Hperm).
  by exists res.
Qed.

(** C2: when the first pass stops early at index [k] (the [max_suites]
    limit was reached), the result has the suites of the first pass, and
    the leftover test number [i] (of [drop k ts]) is added to suite
    [i mod len(suites)]; on A, B, C, D of 100s each with budget 150 and
    [max_suites = 2] the suites are [[A; C]] and [[B; D]]. *)
Theorem divide_tests_into_suites_round_robin :
  (forall (ts : list (string * Q)) (mt : Q) (ms : option Z) (fp : list Suite) (cur : Suite) (k : nat),
     divide_loop mt ms 0 ts [] new_suite = (fp, cur, Some k) ->
     exists res, divide_tests_into_suites ts mt ms = Ok res /\ length res = length fp /\
       forall j b, fp !! j = Some b -> res !! j = Some (add_tests b (rr_share (length fp) j 0 (drop k ts))))
  /\ map tests <$>
       divide_tests_into_suites [("A", 100); ("B", 100); ("C", 100); ("D", 100)] 150 (Some 2%Z)
     = Ok [["A"; "C"]; ["B"; "D"]].
Proof.
  split; [| reflexivity].
  intros ts mt ms fp cur k Hloop.
  pose proof (divide_loop_spec mt ms ts 0 [] [] (List.Forall_nil _)) as Hl.
  change (map suite_of []) with (@nil Suite) in Hl.
  change (suite_of []) with new_suite in Hl.
  unfold divide_tests_into_suites. rewrite Hloop. rewrite Hloop in Hl.
  destruct Hl as (segs & seg & -> & -> & Hne & _ & Hk & -> & Hsne & Hr & _).
  unfold get_test_count. rewrite tests_suite_of. simpl.
  rewrite (max_suites_reached_truthy _ _ Hr).
  assert (Hlt : Nat.ltb k (length ts) = true) by (apply Nat.ltb_lt; lia).
  rewrite Hlt. simpl.
  assert (Hn : (0 < length (map suite_of segs))%nat)
    by (rewrite length_map; destruct segs; [done | simpl; lia]).
  destruct (divide_remaining_loop_spec (length (map suite_of segs)) (drop k ts) (map suite_of segs) 0)
    as (res & Hres & Hlen & Hpt); [done | done |].
  rewrite Nat.Div0.mod_0_l in Hres.
  exists res. split; [done |]. split; [done |]. exact Hpt.
Qed.

(** C3: with non-negative runtimes, take the first pass as the code runs
    it: [divide_loop] ends with the closed suites of segments [segs] and
    the current suite of segment [seg_cur], stopping at [stop]. The
    result has one suite per first-pass bin (the closed segments, then
    [seg_cur] when it holds a test), each topped up with its round-robin
    share of the tests from the [break] index on (none when the loop ran
    to the end); a bin whose share is empty, i.e. not topped up, is exactly
    its segment. In every bin each test after the first was added only
    when the bin's runtime so far plus its runtime was at most the
    budget, and a test over the budget sits alone in its bin; the bins
    followed by the leftovers are the input, so no test is dropped. *)
Theorem divide_tests_into_suites_budget (ts : list (string * Q)) (mt : Q) (ms : option Z) :
  Forall (fun p => 0 <= p.2) ts ->
  exists segs seg_cur stop res,
    divide_loop mt ms 0 ts [] new_suite = (map suite_of segs, suite_of seg_cur, stop) /\
    divide_tests_into_suites ts mt ms = Ok res /\
    concat (first_pass_bins segs seg_cur) ++ leftover_tests ts stop = ts /\
    length res = length (first_pass_bins segs seg_cur) /\
    forall j seg b, first_pass_bins segs seg_cur !! j = Some seg -> res !! j = Some b ->
      b = add_tests (suite_of seg)
            (rr_share (length (first_pass_bins segs seg_cur)) j 0 (leftover_tests ts stop)) /\
      (rr_share (length (first_pass_bins segs seg_cur)) j 0 (leftover_tests ts stop) = [] ->
         tests b = map fst seg /\ total_runtime b = sum_runtime seg) /\
      seg <> [] /\ later_tests_fit mt seg /\
      (forall x, In x seg -> mt < x.2 -> seg = [x]).
Proof.
  intros Hnn.
  destruct (divide_first_pass ts mt ms)
    as (segs & seg_cur & stop & res & Hloop & Hres & Hcat & Hne & Hfit & Hlen & Hpt).
  exists segs, seg_cur, stop, res. do 4 (split; [done |]).
  set (bins := first_pass_bins segs seg_cur) in *.
  set (lo := leftover_tests ts stop) in *.
  intros j seg b Hj Hb.
  assert (Hbeq : b = add_tests (suite_of seg) (rr_share (length bins) j 0 lo)).
  { rewrite (Hpt j seg Hj) in Hb. by injection Hb. }
  assert (Hsnn : Forall (fun p => 0 <= p.2) seg).
  { rewrite <- Hcat in Hnn. apply Forall_app in Hnn as [Hc _].
    apply Forall_concat in Hc. exact (Forall_lookup_1 _ _ _ _ Hc Hj). }
  split; [done |]. split.
  { intros Hsh. rewrite Hbeq, Hsh. simpl. by rewrite tests_suite_of, total_suite_of. }
  split; [exact (Forall_lookup_1 _ _ _ _ Hne Hj) |].
  assert (Hf : later_tests_fit mt seg) by exact (Forall_lookup_1 _ _ _ _ Hfit Hj).
  split; [done |].
  intros x Hx Hbig. exact (oversized_alone mt seg x Hsnn Hf Hx Hbig).
Qed.

Lemma divide_tests_into_suites_round_robin_witness :
  exists res,
    divide_tests_into_suites [("A", 100); ("B", 100); ("C", 100); ("D", 100)] 150 (Some 2%Z) = Ok res /\
    length res = 2%nat.
Proof.
  destruct (proj1 divide_tests_into_suites_round_robin
              [("A", 100); ("B", 100); ("C", 100); ("D", 100)] 150 (Some 2%Z)
              [add_test new_suite "A" 100; add_test new_suite "B" 100] new_suite 2%nat eq_refl)
    as (res & Hres & Hlen & _).
  exists res. split; [exact Hres | exact Hlen].
Defined.

Lemma divide_tests_into_suites_budget_witness :
  exists segs seg_cur stop res,
    divide_loop 150 None 0 [("A", 200); ("B", 50); ("C", 60)] [] new_suite
      = (map suite_of segs, suite_of seg_cur, stop) /\
    divide_tests_into_suites [("A", 200); ("B", 50); ("C", 60)] 150 None = Ok res.
Proof.
  assert (Hnn : Forall (fun p : string * Q => 0 <= p.2) [("A", 200); ("B", 50); ("C", 60)])
    by (repeat constructor; vm_compute; discriminate).
  destruct (divide_tests_into_suites_budget _ 150 None Hnn)
    as (segs & seg_cur & stop & res & Hloop & Hres & _).
  exists segs, seg_cur, stop, res. split; [exact Hloop | exact Hres].
Defined.

(* ------------------------------------------------------------------ *)
(** ** calculate_fallback_suites *)

Lemma fallback_loop_spec (N : nat) tests_ : forall (suites : list Suite) off,
  length suites = N -> (0 < N)%nat ->
  exists res, fallback_loop (Z.of_nat N) (Z.of_nat off) tests_ suites = Ok res /\ length res = N /\
    forall j s, suites !! j = Some s ->
      res !! j = Some (add_tests s (map (fun t => (t, 0)) (rr_share N j off tests_))).
Proof.
  induction tests_ as [|t tests_ IH]; intros suites off Hlen Hn; simpl.
  - exists suites. do 2 (split; [done |]). intros j s Hj. by rewrite Hj.
  - assert (HN : Z.eqb (Z.of_nat N) 0 = false) by (apply Z.eqb_neq; lia).
    rewrite HN.
    assert (Hi : (off mod N < length suites)%nat)
      by (rewrite Hlen; apply Nat.mod_upper_bound; lia).
    assert (Hpy : py_index suites (Z.of_nat off mod Z.of_nat N)%Z = Some (off mod N)%nat).
    { rewrite <- Nat2Z.inj_mod. unfold py_index.
      assert (H1 : (0 <=? Z.of_nat (off mod N))%Z && (Z.of_nat (off mod N) <? Z.of_nat (length suites))%Z = true)
        by (apply andb_true_intro; split; [apply Z.leb_le | apply Z.ltb_lt]; lia).
      rewrite H1. by rewrite Nat2Z.id. }
    rewrite Hpy.
    destruct (lookup_lt_is_Some_2 suites (off mod N) Hi) as [s0 Hs0]. rewrite Hs0.
    replace (Z.of_nat off + 1)%Z with (Z.of_nat (S off)) by lia.
    destruct (IH (<[off mod N := add_test s0 t 0]> suites) (S off))
      as (res & Hres & Hlen' & Hpt); [by rewrite length_insert | done |].
    exists res. do 2 (split; [done |]).
    intros j s Hj. destruct (Nat.eq_dec (off mod N) j) as [<-|Hne].
    + rewrite Nat.eqb_refl. rewrite Hs0 in Hj. injection Hj as <-.
      apply Hpt. by apply list_lookup_insert_eq.
    + apply Nat.eqb_neq in Hne as Hb. rewrite Hb. apply Hpt.
      by rewrite list_lookup_insert_ne.
Qed.

Lemma calculate_fallback_suites_spec (num_suites : Z) (tests_ : list string) :
  (1 <= num_suites)%Z ->
  exists res, calculate_fallback_suites num_suites tests_ = Ok res /\
    length res = Z.to_nat num_suites /\
    forall j, (j < Z.to_nat num_suites)%nat ->
      res !! j = Some (add_tests new_suite (map (fun t => (t, 0)) (rr_share (Z.to_nat num_suites) j 0 tests_))).
Proof.
  intros Hn. unfold calculate_fallback_suites.
  destruct (fallback_loop_spec (Z.to_nat num_suites) tests_
              (replicate (Z.to_nat num_suites) new_suite) 0)
    as (res & Hres & Hlen & Hpt); [by rewrite length_replicate | lia |].
  rewrite Z2Nat.id in Hres by lia.
  exists res. split; [exact Hres |]. split; [done |].
  intros j Hj. apply Hpt. by apply lookup_replicate_2.
Qed.

Lemma rr_share_beyond {A} N j off (l : list A) :
  (off + length l <= j)%nat -> rr_share N j off l = [].
Proof.
  revert off. induction l as [|x l IH]; intros off Hj; simpl; [done |].
  simpl in Hj.
  assert (Hm : (off mod N <= off)%nat) by apply Nat.Div0.mod_le.
  assert (Hb : Nat.eqb (off mod N) j = false) by (apply Nat.eqb_neq; lia).
  rewrite Hb. apply IH. lia.
Qed.

Lemma divide_tests_into_suites_nonempty ts mt ms res :
  divide_tests_into_suites ts mt ms = Ok res -> Forall (fun s => tests s <> []) res.
Proof.
  intros H.
  destruct (divide_spec ts mt ms) as (segs & leftovers & res' & Hres & _ & Hne & _ & Hlen & Hpt & _).
  rewrite H in Hres. injection Hres as <-.
  apply Forall_lookup_2. intros i b Hb.
  assert (Hi : (i < length segs)%nat) by (rewrite <- Hlen; by eapply lookup_lt_Some).
  destruct (lookup_lt_is_Some_2 segs i Hi) as [seg Hseg].
  rewrite (Hpt i seg Hseg) in Hb. injection Hb as <-.
  rewrite tests_add_tests, tests_suite_of.
  pose proof (Forall_lookup_1 _ _ _ _ Hne Hseg) as Hsn.
  destruct seg; [done | discriminate].
Qed.

(** C7: for every [num_suites >= 1], [calculate_fallback_suites] puts the
    test at position [i] into suite [i mod num_suites] with runtime [0];
    ten tests t0..t9 in 3 suites give [[t0; t3; t6; t9]], [[t1; t4; t7]],
    [[t2; t5; t8]], of sizes 4, 3, 3. *)
Theorem calculate_fallback_suites_round_robin :
  (forall (num_suites : Z) (tests_ : list string), (1 <= num_suites)%Z ->
     exists res, calculate_fallback_suites num_suites tests_ = Ok res /\
       forall j, (j < Z.to_nat num_suites)%nat ->
         res !! j = Some (add_tests new_suite (map (fun t => (t, 0)) (rr_share (Z.to_nat num_suites) j 0 tests_))))
  /\ map tests <$> calculate_fallback_suites 3 ["t0"; "t1"; "t2"; "t3"; "t4"; "t5"; "t6"; "t7"; "t8"; "t9"]
     = Ok [["t0"; "t3"; "t6"; "t9"]; ["t1"; "t4"; "t7"]; ["t2"; "t5"; "t8"]]
  /\ map (fun s => length (tests s)) <$>
       calculate_fallback_suites 3 ["t0"; "t1"; "t2"; "t3"; "t4"; "t5"; "t6"; "t7"; "t8"; "t9"]
     = Ok [4%nat; 3%nat; 3%nat].
Proof.
  split; [| split; reflexivity].
  intros num_suites tests_ Hn.
  destruct (calculate_fallback_suites_spec num_suites tests_ Hn) as (res & Hres & _ & Hpt).
  by exists res.
Qed.

(** C10: for every [num_suites >= 1] and every test list, also an empty
    one or one shorter than [num_suites], [calculate_fallback_suites]
    returns exactly [num_suites] suites, and the suites past the number of
    tests are [Suite()] itself (no test, runtime 0); whereas every suite
    returned by [divide_tests_into_suites] has at least one test. *)
Theorem calculate_fallback_suites_count :
  (forall (num_suites : Z) (tests_ : list string), (1 <= num_suites)%Z ->
     exists res, calculate_fallback_suites num_suites tests_ = Ok res /\
       length res = Z.to_nat num_suites /\
       forall j, (length tests_ <= j < Z.to_nat num_suites)%nat -> res !! j = Some new_suite)
  /\ (forall ts mt ms res, divide_tests_into_suites ts mt ms = Ok res ->
        Forall (fun s => tests s <> []) res).
Proof.
  split; [| exact divide_tests_into_suites_nonempty].
  intros num_suites tests_ Hn.
  destruct (calculate_fallback_suites_spec num_suites tests_ Hn) as (res & Hres & Hlen & Hpt).
  exists res. do 2 (split; [done |]).
  intros j Hj. rewrite (Hpt j) by lia. by rewrite rr_share_beyond by lia.
Qed.

Lemma calculate_fallback_suites_round_robin_witness :
  exists res, calculate_fallback_suites 4 ["t0"; "t1"] = Ok res.
Proof.
  destruct (proj1 calculate_fallback_suites_round_robin 4%Z ["t0"; "t1"] ltac:(lia)) as (res & Hres & _).
  exists res. exact Hres.
Defined.

Lemma calculate_fallback_suites_count_witness :
  (exists res, calculate_fallback_suites 3 [] = Ok res /\ length res = 3%nat) /\
  Forall (fun s => tests s <> []) [add_test new_suite "A" 100].
Proof.
  split.
  - destruct (proj1 calculate_fallback_suites_count 3%Z [] ltac:(lia)) as (res & Hres & Hlen & _).
    exists res. split; [exact Hres | exact Hlen].
  - apply (proj2 calculate_fallback_suites_count [("A", 100)] 150 None). reflexivity.
Defined.

(* ------------------------------------------------------------------ *)
(** ** The runtime dicts *)

Lemma dict_lookup_None_notin d k : dict_lookup d k = None <-> k ∉ map fst d.
Proof.
  induction d as [|[k' v] d IH]; simpl.
  - split; [intros _; apply not_elem_of_nil | done].
  - destruct (String.eqb_spec k k') as [->|Hne].
    + split; [discriminate | intros H; exfalso; apply H; constructor].
    + rewrite IH, elem_of_cons. naive_solver.
Qed.

Lemma dict_set_keys d k v : dict_lookup d k <> None -> map fst (dict_set d k v) = map fst d.
Proof.
  induction d as [|[k' v'] d IH]; simpl; [done |].
  destruct (String.eqb_spec k k') as [->|Hne]; simpl; [done |].
  intros H. by rewrite IH.
Qed.

Lemma dict_set_app_absent d k v0 v :
  dict_lookup d k = None -> dict_set (d ++ [(k, v0)]) k v = d ++ [(k, v)].
Proof.
  induction d as [|[k' v'] d IH]; simpl.
  - by rewrite String.eqb_refl.
  - destruct (String.eqb_spec k k'); [discriminate |]. intros H. by rewrite IH.
Qed.

Lemma dict_set_in d k v k' v' : In (k', v') (dict_set d k v) -> (k' = k /\ v' = v) \/ In (k', v') d.
Proof.
  induction d as [|[k0 v0] d IH]; simpl.
  - intros [H|[]]. injection H as -> ->. by left.
  - destruct (String.eqb_spec k k0) as [->|Hne]; simpl.
    + intros [H|H]; [injection H as -> ->; by left | by right; right].
    + intros [H|H]; [by right; left |]. destruct (IH H) as [?|?]; [by left | by right; right].
Qed.

Lemma dict_lookup_in d k v : dict_lookup d k = Some v -> In (k, v) d.
Proof.
  induction d as [|[k' v'] d IH]; simpl; [discriminate |].
  destruct (String.eqb_spec k k') as [->|Hne]; [intros H; injection H as ->; by left |].
  intros H. right. by apply IH.
Qed.

Lemma dict_value_app_None d k k' :
  dict_lookup d k = None -> dict_value (d ++ [(k, None)]) k' = dict_value d k'.
Proof.
  unfold dict_value. induction d as [|[k0 v0] d IH]; simpl.
  - intros _. by destruct (String.eqb k' k).
  - intros H. destruct (String.eqb k k0) eqn:Hk; [discriminate |].
    destruct (String.eqb k' k0); [done | by apply IH].
Qed.

(** [_add_runtime_info] keeps the keys of the dict, appending a new key
    last; it raises only [ZeroDivisionError]. *)
Lemma _add_runtime_info_keys d k dur n d' :
  _add_runtime_info d k dur n = Ok d' -> map fst d' = first_seen (map fst d) k.
Proof.
  unfold _add_runtime_info, defaultdict_getitem, first_seen.
  destruct (dict_lookup d k) as [v|] eqn:Hl.
  - assert (Hin : k ∈ map fst d).
    { destruct (decide (k ∈ map fst d)) as [?|Hn]; [done |].
      apply dict_lookup_None_notin in Hn. congruence. }
    rewrite bool_decide_eq_true_2 by done.
    destruct v as [info|].
    + simpl. destruct (_average _ _ _ _) as [avg|e]; simpl; [| discriminate].
      intros H. injection H as <-. apply dict_set_keys. by rewrite Hl.
    + intros H. injection H as <-. apply dict_set_keys. by rewrite Hl.
  - assert (Hn : k ∉ map fst d) by by apply dict_lookup_None_notin.
    rewrite bool_decide_eq_false_2 by done.
    intros H. injection H as <-. rewrite dict_set_app_absent by done.
    by rewrite map_app.
Qed.

Lemma _add_runtime_info_positive d k dur n :
  runs_positive d -> (1 <= n)%Z ->
  exists d', _add_runtime_info d k dur n = Ok d' /\ runs_positive d'.
Proof.
  intros Hpos Hn. unfold _add_runtime_info, defaultdict_getitem.
  destruct (dict_lookup d k) as [v|] eqn:Hl.
  - destruct v as [info|].
    + assert (Hi : (1 <= num_run info)%Z) by (apply (Hpos k); by apply dict_lookup_in).
      unfold _average. assert (Hz : Z.eqb (num_run info + n) 0 = false) by (apply Z.eqb_neq; lia).
      rewrite Hz. simpl. eexists. split; [reflexivity |].
      intros k' info' Hin. destruct (dict_set_in _ _ _ _ _ Hin) as [[_ Hv]|Hd].
      * injection Hv as Hv. subst info'. simpl. lia.
      * by apply (Hpos k').
    + eexists. split; [reflexivity |].
      intros k' info' Hin. destruct (dict_set_in _ _ _ _ _ Hin) as [[_ Hv]|Hd].
      * injection Hv as Hv. subst info'. simpl. lia.
      * by apply (Hpos k').
  - eexists. split; [reflexivity |].
    intros k' info' Hin. destruct (dict_set_in _ _ _ _ _ Hin) as [[_ Hv]|Hd].
    + injection Hv as Hv. subst info'. simpl. lia.
    + apply in_app_or in Hd as [Hd|[Hd|[]]]; [by apply (Hpos k') | discriminate].
Qed.

Lemma _add_runtime_info_values d k dur n d' :
  (forall k' v, In (k', v) d -> v <> None) ->
  _add_runtime_info d k dur n = Ok d' -> forall k' v, In (k', v) d' -> v <> None.
Proof.
  intros Hd. unfold _add_runtime_info, defaultdict_getitem.
  destruct (dict_lookup d k) as [v0|] eqn:Hl.
  - assert (Hset : forall w, w <> None -> forall k' v, In (k', v) (dict_set d k w) -> v <> None).
    { intros w Hw k' v Hin. destruct (dict_set_in _ _ _ _ _ Hin) as [[_ ->]|H]; [done | by eapply Hd]. }
    destruct v0 as [info|].
    + simpl. destruct (_average _ _ _ _) as [avg|e]; simpl; [| discriminate].
      intros H. injection H as <-. by apply Hset.
    + intros H. injection H as <-. by apply Hset.
  - intros H. injection H as <-. rewrite dict_set_app_absent by done.
    intros k' v Hin. apply in_app_or in Hin as [Hin|[Hin|[]]]; [by eapply Hd |].
    by injection Hin as _ <-.
Qed.

Lemma first_seen_in acc f x : x ∈ first_seen acc f -> x ∈ acc \/ x = f.
Proof.
  unfold first_seen. case_bool_decide; [by left |].
  rewrite elem_of_app, list_elem_of_singleton. tauto.
Qed.

Lemma fold_first_seen_in l : forall acc x, x ∈ fold_left first_seen l acc -> x ∈ acc \/ x ∈ l.
Proof.
  induction l as [|f l IH]; intros acc x Hx; simpl in *; [by left |].
  destruct (IH _ _ Hx) as [H|H].
  - destruct (first_seen_in _ _ _ H) as [?| ->]; [by left | right; constructor].
  - right. by constructor.
Qed.

Lemma fold_first_seen_nodup l : forall acc, NoDup acc -> NoDup (fold_left first_seen l acc).
Proof.
  induction l as [|f l IH]; intros acc Hacc; simpl; [done |].
  apply IH. unfold first_seen. case_bool_decide; [done |].
  apply NoDup_app. split; [done |]. split; [| apply NoDup_singleton].
  intros x Hx Hy. apply list_elem_of_singleton in Hy. subst. done.
Qed.

Section Ingestion.
Context {TN : Testname}.

(** The keys of the test dict after ingestion are the regular test
    names in order of first appearance. *)
Lemma add_all_stats_keys docs : forall ts ts',
  add_all_stats ts docs = Ok ts' ->
  map fst (runtime_by_test ts') = fold_left first_seen (regular_test_names docs) (map fst (runtime_by_test ts)).
Proof.
  induction docs as [|doc docs IH]; intros ts ts' H; simpl in *.
  - by injection H as <-.
  - unfold _add_stats, mbind, res_bind in H. unfold regular_test_names. simpl.
    destruct (is_resmoke_hook (normalize_test_file (test_file doc))) eqn:Hh; simpl.
    + unfold _add_test_hook_stats, mbind, res_bind in H.
      destruct (_add_runtime_info _ _ _ _) as [d|e]; [| discriminate].
      by rewrite (IH _ _ H).
    + unfold _add_test_stats, mbind, res_bind in H.
      destruct (_add_runtime_info _ _ _ _) as [d|e] eqn:Hd; [| discriminate].
      rewrite (IH _ _ H). simpl. by rewrite (_add_runtime_info_keys _ _ _ _ _ Hd).
Qed.

Lemma add_all_stats_values docs : forall ts ts',
  (forall k v, In (k, v) (runtime_by_test ts) -> v <> None) ->
  add_all_stats ts docs = Ok ts' -> forall k v, In (k, v) (runtime_by_test ts') -> v <> None.
Proof.
  induction docs as [|doc docs IH]; intros ts ts' Hts H; simpl in *.
  - by injection H as <-.
  - unfold _add_stats, mbind, res_bind in H.
    destruct (is_resmoke_hook (normalize_test_file (test_file doc))).
    + unfold _add_test_hook_stats, mbind, res_bind in H.
      destruct (_add_runtime_info _ _ _ _) as [d|e]; [| discriminate].
      eapply IH; [| exact H]. exact Hts.
    + unfold _add_test_stats, mbind, res_bind in H.
      destruct (_add_runtime_info _ _ _ _) as [d|e] eqn:Hd; [| discriminate].
      eapply IH; [| exact H]. exact (_add_runtime_info_values _ _ _ _ _ Hts Hd).
Qed.

Lemma add_all_stats_positive docs : forall ts,
  runs_positive (runtime_by_test ts) -> runs_positive (hook_runtime_by_test ts) ->
  Forall (fun doc => (1 <= num_pass doc)%Z) docs ->
  exists ts', add_all_stats ts docs = Ok ts' /\
    runs_positive (runtime_by_test ts') /\ runs_positive (hook_runtime_by_test ts').
Proof.
  induction docs as [|doc docs IH]; intros ts Hr Hh Hdocs; simpl.
  - by exists ts.
  - inversion Hdocs as [|? ? Hdoc Hdocs']; subst.
    unfold _add_stats.
    destruct (is_resmoke_hook (normalize_test_file (test_file doc))).
    + unfold _add_test_hook_stats.
      destruct (_add_runtime_info_positive (hook_runtime_by_test ts)
                  (split_test_hook_name (normalize_test_file (test_file doc))).1
                  (avg_duration_pass doc) (num_pass doc) Hh Hdoc) as (d & Hd & Hdp).
      rewrite Hd. simpl. by apply IH.
    + unfold _add_test_stats.
      destruct (_add_runtime_info_positive (runtime_by_test ts)
                  (normalize_test_file (test_file doc))
                  (avg_duration_pass doc) (num_pass doc) Hr Hdoc) as (d & Hd & Hdp).
      rewrite Hd. simpl. by apply IH.
Qed.

Lemma TestStats_init_keys docs ts :
  TestStats_init docs = Ok ts -> map fst (runtime_by_test ts) = encounter_order (regular_test_names docs).
Proof. intros H. exact (add_all_stats_keys docs _ _ H). Qed.

Lemma TestStats_init_values docs ts :
  TestStats_init docs = Ok ts -> forall k v, In (k, v) (runtime_by_test ts) -> v <> None.
Proof. intros Hinit. eapply add_all_stats_values; [| exact Hinit]. intros k v []. Qed.

End Ingestion.

(* ------------------------------------------------------------------ *)
(** ** get_tests_runtimes *)

Lemma getitem_value d k : (defaultdict_getitem d k).2 = dict_value d k.
Proof. unfold defaultdict_getitem, dict_value. by destruct (dict_lookup d k). Qed.

Lemma getitem_preserves d k k' : dict_value (defaultdict_getitem d k).1 k' = dict_value d k'.
Proof.
  unfold defaultdict_getitem. destruct (dict_lookup d k) eqn:Hl; [done |].
  by apply dict_value_app_None.
Qed.

Section Collect.
Context {TN : Testname}.

(** Each entry of the test dict gives one output pair: the test's own
    duration plus the duration of the hook entry under its short name. *)
Lemma collect_runtimes_spec items : forall hooks out hooks',
  collect_runtimes items hooks = Ok (out, hooks') ->
  Forall2 (fun e o => exists info, e = (o.1, Some info) /\
             o.2 = match dict_value hooks (get_short_name_from_test_file o.1) with
                   | Some h => duration info + duration h
                   | None => duration info
                   end) items out.
Proof.
  induction items as [|[t v] items IH]; intros hooks out hooks' H; simpl in H.
  - injection H as <- <-. constructor.
  - destruct v as [info|]; [| discriminate]. unfold mbind, res_bind in H.
    pose proof (getitem_value hooks (get_short_name_from_test_file t)) as Hv.
    pose proof (getitem_preserves hooks (get_short_name_from_test_file t)) as Hp.
    destruct (defaultdict_getitem hooks (get_short_name_from_test_file t)) as [hooks1 hv].
    simpl in Hv, Hp.
    destruct (collect_runtimes items hooks1) as [[out1 hooks2]|e] eqn:Hc; [| discriminate].
    injection H as <- <-. constructor.
    + exists info. split; [done |]. simpl. by rewrite <- Hv.
    + eapply Forall2_impl; [exact (IH _ _ _ Hc) |].
      intros e o (info' & He & Ho). exists info'. split; [done |]. by rewrite Ho, Hp.
Qed.

Lemma collect_runtimes_ok items : forall hooks,
  (forall k v, In (k, v) items -> v <> None) ->
  exists out hooks', collect_runtimes items hooks = Ok (out, hooks').
Proof.
  induction items as [|[t v] items IH]; intros hooks Hv; simpl.
  - by exists [], hooks.
  - destruct v as [info|]; [| exfalso; by apply (Hv t None); [left |]].
    unfold mbind, res_bind.
    destruct (defaultdict_getitem hooks (get_short_name_from_test_file t)) as [hooks1 hv].
    destruct (IH hooks1) as (out & hooks' & Hc); [intros k v Hin; apply (Hv k); by right |].
    rewrite Hc. eexists _, _. reflexivity.
Qed.

End Collect.

Lemma Forall2_keys (items : RuntimeDict) (out : list (string * Q)) (P : option RuntimeInfo -> Q -> Prop) :
  Forall2 (fun e o => exists info, e = (o.1, Some info) /\ P (Some info) o.2) items out ->
  map fst items = map fst out.
Proof.
  induction 1 as [|e o items out (info & -> & _) _ IH]; simpl; [done |]. by rewrite IH.
Qed.

(* ------------------------------------------------------------------ *)
(** ** The sort by decreasing runtime *)

Definition runtime_ge (a b : string * Q) : Prop := b.2 <= a.2.

Definition runtime_is (d : Q) (p : string * Q) : bool := Qeq_bool p.2 d.

Lemma insert_desc_perm x l : insert_desc x l ≡ₚ x :: l.
Proof.
  induction l as [|y l IH]; simpl; [done |].
  destruct (Qle_bool x.2 y.2); [| done].
  rewrite IH. apply Permutation_swap.
Qed.

Lemma sort_fold_perm l : forall acc, fold_left (fun acc x => insert_desc x acc) l acc ≡ₚ acc ++ l.
Proof.
  induction l as [|x l IH]; intros acc; simpl; [by rewrite app_nil_r |].
  rewrite IH, insert_desc_perm. simpl. apply Permutation_middle.
Qed.

Lemma insert_desc_hdrel y x l : HdRel runtime_ge y l -> runtime_ge y x -> HdRel runtime_ge y (insert_desc x l).
Proof.
  intros Hh Hyx. destruct l as [|z l]; simpl; [by constructor |].
  destruct (Qle_bool x.2 z.2); constructor; [by inversion Hh | done].
Qed.

Lemma insert_desc_sorted x l : Sorted runtime_ge l -> Sorted runtime_ge (insert_desc x l).
Proof.
  induction l as [|y l IH]; intros Hs; simpl; [by repeat constructor |].
  apply Sorted_inv in Hs as [Hs Hh].
  destruct (Qle_bool x.2 y.2) eqn:Hxy.
  - constructor; [by apply IH |]. apply insert_desc_hdrel; [done |].
    unfold runtime_ge. by apply Qle_bool_iff.
  - constructor; [by constructor |]. constructor. unfold runtime_ge.
    apply Qlt_le_weak, Qnot_le_lt. intros Hle. apply Qle_bool_iff in Hle. congruence.
Qed.

Lemma sort_fold_sorted l : forall acc, Sorted runtime_ge acc ->
  Sorted runtime_ge (fold_left (fun acc x => insert_desc x acc) l acc).
Proof.
  induction l as [|x l IH]; intros acc Hs; simpl; [done |].
  apply IH. by apply insert_desc_sorted.
Qed.

Lemma filter_runtime_is_none d l :
  (forall z, In z l -> runtime_is d z = false) -> List.filter (runtime_is d) l = [].
Proof.
  induction l as [|z l IH]; intros Hz; simpl; [done |].
  rewrite (Hz z (or_introl eq_refl)). apply IH. intros w Hw. apply Hz. by right.
Qed.

(** Inserting [x] keeps the elements of any one runtime in order, [x]
    last among them. *)
Lemma filter_insert_desc d x l :
  Sorted runtime_ge l ->
  List.filter (runtime_is d) (insert_desc x l) =
  List.filter (runtime_is d) l ++ (if runtime_is d x then [x] else []).
Proof.
  induction l as [|y l IH]; intros Hs; simpl; [by destruct (runtime_is d x) |].
  destruct (Qle_bool x.2 y.2) eqn:Hxy; simpl.
  - apply Sorted_inv in Hs as [Hs _].
    destruct (runtime_is d y); simpl; by rewrite IH.
  - assert (Hlt : y.2 < x.2).
    { apply Qnot_le_lt. intros Hle. apply Qle_bool_iff in Hle. congruence. }
    assert (Hall : forall z, In z (y :: l) -> z.2 < x.2).
    { apply Sorted_StronglySorted in Hs; [| intros a b c Hab Hbc; unfold runtime_ge in *; lra].
      apply StronglySorted_inv in Hs as [_ Hf].
      intros z [<-|Hz]; [done |].
      rewrite List.Forall_forall in Hf. specialize (Hf z Hz). unfold runtime_ge in Hf. lra. }
    destruct (runtime_is d x) eqn:Hx.
    + unfold runtime_is in Hx. apply Qeq_bool_iff in Hx.
      assert (Hnone : List.filter (runtime_is d) (y :: l) = []).
      { apply filter_runtime_is_none. intros z Hz. specialize (Hall z Hz).
        unfold runtime_is. apply not_true_iff_false. intros He. apply Qeq_bool_iff in He. lra. }
      simpl in Hnone. rewrite Hnone. done.
    + by rewrite app_nil_r.
Qed.

Lemma sort_fold_filter d l : forall acc, Sorted runtime_ge acc ->
  List.filter (runtime_is d) (fold_left (fun acc x => insert_desc x acc) l acc) =
  List.filter (runtime_is d) acc ++ List.filter (runtime_is d) l.
Proof.
  induction l as [|x l IH]; intros acc Hs; simpl; [by rewrite app_nil_r |].
  rewrite IH by (by apply insert_desc_sorted).
  rewrite filter_insert_desc by done.
  destruct (runtime_is d x); simpl; by rewrite <- app_assoc.
Qed.

Lemma sort_by_runtime_desc_perm l : sort_by_runtime_desc l ≡ₚ l.
Proof. unfold sort_by_runtime_desc. by rewrite sort_fold_perm. Qed.

Lemma sort_by_runtime_desc_sorted l : Sorted runtime_ge (sort_by_runtime_desc l).
Proof. apply sort_fold_sorted. constructor. Qed.

Lemma sort_by_runtime_desc_stable d l :
  List.filter (runtime_is d) (sort_by_runtime_desc l) = List.filter (runtime_is d) l.
Proof. unfold sort_by_runtime_desc. rewrite sort_fold_filter by constructor. done. Qed.

(* ------------------------------------------------------------------ *)
(** ** Exceptions raised by the statistics computation *)

Lemma _add_runtime_info_raises d k dur n :
  raises_only (fun e => e = ZeroDivisionError) (_add_runtime_info d k dur n).
Proof.
  unfold _add_runtime_info, defaultdict_getitem.
  destruct (dict_lookup d k) as [[info|]|]; simpl; try done.
  unfold _average. by destruct (Z.eqb _ 0).
Qed.

Section Raises.
Context {TN : Testname}.

Lemma add_all_stats_raises docs : forall ts,
  raises_only (fun e => e = ZeroDivisionError) (add_all_stats ts docs).
Proof.
  induction docs as [|doc docs IH]; intros ts; simpl; [done |].
  unfold _add_stats, _add_test_hook_stats, _add_test_stats, mbind, res_bind.
  destruct (is_resmoke_hook _).
  - pose proof (_add_runtime_info_raises (hook_runtime_by_test ts)
      (split_test_hook_name (normalize_test_file (test_file doc))).1
      (avg_duration_pass doc) (num_pass doc)) as H.
    destruct (_add_runtime_info _ _ _ _); [apply IH | done].
  - pose proof (_add_runtime_info_raises (runtime_by_test ts)
      (normalize_test_file (test_file doc)) (avg_duration_pass doc) (num_pass doc)) as H.
    destruct (_add_runtime_info _ _ _ _); [apply IH | done].
Qed.

Lemma collect_runtimes_raises items : forall hooks,
  raises_only (fun e => e = KeyError) (collect_runtimes items hooks).
Proof.
  induction items as [|[t [info|]] items IH]; intros hooks; simpl; try done.
  unfold mbind, res_bind.
  destruct (defaultdict_getitem hooks (get_short_name_from_test_file t)) as [hooks1 hv].
  specialize (IH hooks1).
  destruct (collect_runtimes items hooks1) as [[out hooks2]|e]; done.
Qed.

Lemma calculate_suites_from_evg_stats_raises data t ms :
  raises_only (fun e => e = ZeroDivisionError \/ e = KeyError)
    (calculate_suites_from_evg_stats data t ms).
Proof.
  unfold calculate_suites_from_evg_stats, TestStats_init, mbind, res_bind.
  pose proof (add_all_stats_raises data (mkTestStats [] [])) as H1.
  destruct (add_all_stats _ data) as [ts|e]; simpl in *; [| by left].
  unfold get_tests_runtimes, mbind, res_bind.
  pose proof (collect_runtimes_raises (runtime_by_test ts) (hook_runtime_by_test ts)) as H2.
  destruct (collect_runtimes _ _) as [[tests_ hooks]|e]; simpl in *; [| by right].
  destruct (divide_spec (sort_by_runtime_desc tests_) t ms) as (? & ? & res & Hres & _).
  by rewrite Hres.
Qed.

End Raises.

Lemma Forall2_in_r {A B} (R : A -> B -> Prop) l1 l2 y :
  Forall2 R l1 l2 -> In y l2 -> exists x, In x l1 /\ R x y.
Proof.
  induction 1 as [|x' y' l1 l2 Hr _ IH]; intros Hin; [done |].
  destruct Hin as [<-|Hin]; [exists x'; split; [left |] | destruct (IH Hin) as (x & ? & ?); exists x; split; [right |]]; done.
Qed.

Lemma dict_lookup_nodup d k v : NoDup (map fst d) -> In (k, v) d -> dict_lookup d k = Some v.
Proof.
  induction d as [|[k' v'] d IH]; simpl; [done |].
  intros Hnd Hin. apply NoDup_cons in Hnd as [Hk' Hnd].
  destruct Hin as [Heq|Hin].
  - injection Heq as -> ->. by rewrite String.eqb_refl.
  - destruct (String.eqb_spec k k') as [->|Hne]; [| by apply IH].
    exfalso. apply Hk'. apply list_elem_of_In. apply in_map_iff. by exists (k', v).
Qed.

Section Composition.
Context {TN : Testname}.

(** Ingesting [docs ++ docs'] is ingesting [docs], then [docs']. *)
Lemma add_all_stats_app docs docs' : forall ts,
  add_all_stats ts (docs ++ docs') = (ts' ← add_all_stats ts docs; add_all_stats ts' docs').
Proof.
  induction docs as [|doc docs IH]; intros ts; simpl; [done |].
  unfold mbind, res_bind. destruct (_add_stats ts doc) as [ts1|e]; [| done].
  apply IH.
Qed.

Lemma add_all_stats_snoc docs doc ts :
  add_all_stats ts (docs ++ [doc]) = (ts' ← add_all_stats ts docs; _add_stats ts' doc).
Proof.
  rewrite add_all_stats_app. unfold mbind, res_bind.
  destruct (add_all_stats ts docs) as [ts1|e]; [| done]. simpl.
  unfold mbind, res_bind. by destruct (_add_stats ts1 doc).
Qed.

(** The keys of the test dict are names of regular tests, never of hooks. *)
Lemma TestStats_init_not_hook docs ts t :
  TestStats_init docs = Ok ts -> t ∈ map fst (runtime_by_test ts) -> is_resmoke_hook t = false.
Proof.
  intros Hinit Ht. rewrite (TestStats_init_keys _ _ Hinit) in Ht.
  unfold encounter_order in Ht.
  destruct (fold_first_seen_in _ _ _ Ht) as [Hnil|Hin]; [by apply not_elem_of_nil in Hnil |].
  apply list_elem_of_In in Hin. unfold regular_test_names in Hin.
  apply filter_In in Hin as [_ Hneg]. by destruct (is_resmoke_hook t).
Qed.

Lemma TestStats_init_nodup docs ts :
  TestStats_init docs = Ok ts -> NoDup (map fst (runtime_by_test ts)).
Proof.
  intros Hinit. rewrite (TestStats_init_keys _ _ Hinit).
  apply fold_first_seen_nodup. constructor.
Qed.

End Composition.

Lemma runs_positive_lookup d k info :
  runs_positive d -> dict_lookup d k = Some (Some info) -> (1 <= num_run info)%Z.
Proof. intros Hp Hl. exact (Hp k info (dict_lookup_in _ _ _ Hl)). Qed.

(* ------------------------------------------------------------------ *)
(** ** C1 .. C10 : the statistics *)

(** C4: a sample for a test already in the dict is merged by the weighted
    average [(d_a * n_a + d_b * n_b) / (n_a + n_b)] with the run counts
    summed, in place; a sample for a new test is stored as it is, at the
    end of the dict; the samples are merged one at a time in ingestion
    order; merging (10 s, 5 runs) with (20 s, 5 runs) gives 15 s and 10
    runs. *)
Theorem _add_runtime_info_weighted_average :
  (forall d k dur n info, dict_lookup d k = Some (Some info) -> (num_run info + n <> 0)%Z ->
     _add_runtime_info d k dur n =
     Ok (dict_set d k (Some (mkRuntimeInfo
           ((duration info * inject_Z (num_run info) + dur * inject_Z n) / inject_Z (num_run info + n))
           (num_run info + n))))) /\
  (forall d k dur n, dict_lookup d k = None ->
     _add_runtime_info d k dur n = Ok (d ++ [(k, Some (mkRuntimeInfo dur n))])) /\
  (forall (TN : Testname) docs doc,
     TestStats_init (docs ++ [doc]) = (ts ← TestStats_init docs; _add_stats ts doc)) /\
  (exists q, TestStats_init [mkTestStatsDoc "jstests/core/foo.js" 10 5;
                             mkTestStatsDoc "jstests/core/foo.js" 20 5]
             = Ok (mkTestStats [("jstests/core/foo.js", Some (mkRuntimeInfo q 10))] []) /\ q == 15).
Proof.
  split; [| split; [| split]].
  - intros d k dur n info Hl Hn. unfold _add_runtime_info, defaultdict_getitem.
    rewrite Hl. simpl. unfold _average.
    destruct (Z.eqb_spec (num_run info + n) 0) as [He|_]; [lia | done].
  - intros d k dur n Hl. unfold _add_runtime_info, defaultdict_getitem.
    rewrite Hl. simpl. by rewrite dict_set_app_absent.
  - intros TN docs doc. apply add_all_stats_snoc.
  - eexists. split; [reflexivity | reflexivity].
Qed.

(** C4 at a concrete present key. *)
Lemma _add_runtime_info_weighted_average_witness :
  _add_runtime_info [("t", Some (mkRuntimeInfo 10 5))] "t" 20 5 =
  Ok [("t", Some (mkRuntimeInfo ((10 * inject_Z 5 + 20 * inject_Z 5) / inject_Z (5 + 5)) (5 + 5)))].
Proof.
  exact (proj1 _add_runtime_info_weighted_average [("t", Some (mkRuntimeInfo 10 5))] "t" 20 5%Z
           (mkRuntimeInfo 10 5) eq_refl ltac:(simpl; lia)).
Defined.

(** C5: every pair [(t, d)] returned by [get_tests_runtimes] is for a
    regular test [t] of the test dict (never a hook), and [d] is the
    test's own averaged duration plus the averaged duration of the hook
    entry under the test's short name, or its own duration when there is
    none; own 5 s and hook 2 s give exactly 7 s. *)
Theorem get_tests_runtimes_hook_folding :
  (forall (TN : Testname) docs ts, TestStats_init docs = Ok ts ->
     exists out ts', get_tests_runtimes ts = Ok (out, ts') /\
       forall t d, In (t, d) out ->
         is_resmoke_hook t = false /\
         exists info, dict_lookup (runtime_by_test ts) t = Some (Some info) /\
           d = match dict_value (hook_runtime_by_test ts) (get_short_name_from_test_file t) with
               | Some h => duration info + duration h
               | None => duration info
               end) /\
  (fun r => map (fun p => (p.1, Qred p.2)) r.1) <$>
    (ts ← TestStats_init [mkTestStatsDoc "jstests/core/foo.js" 5 1;
                           mkTestStatsDoc "foo:ValidateCollections" 2 1];
     get_tests_runtimes ts)
  = Ok [("jstests/core/foo.js", 7)].
Proof.
  split; [| reflexivity].
  intros TN docs ts Hinit.
  destruct (collect_runtimes_ok (runtime_by_test ts) (hook_runtime_by_test ts)
              (TestStats_init_values _ _ Hinit)) as (tests_ & hooks' & Hc).
  exists (sort_by_runtime_desc tests_), (mkTestStats (runtime_by_test ts) hooks').
  split; [unfold get_tests_runtimes; by rewrite Hc |].
  intros t d Hin.
  apply (Permutation_in _ (sort_by_runtime_desc_perm tests_)) in Hin.
  destruct (Forall2_in_r _ _ _ _ (collect_runtimes_spec _ _ _ _ Hc) Hin)
    as (e & He & info & -> & Hd).
  simpl in He, Hd. split.
  - apply (TestStats_init_not_hook _ _ _ Hinit). apply list_elem_of_In, in_map_iff.
    by exists (t, Some info).
  - exists info. split; [| done].
    apply dict_lookup_nodup; [exact (TestStats_init_nodup _ _ Hinit) | done].
Qed.

(** C5 on an ingestion with a test and its hook. *)
Lemma get_tests_runtimes_hook_folding_witness :
  exists out ts',
    get_tests_runtimes (mkTestStats [("jstests/core/foo.js", Some (mkRuntimeInfo 5 1))]
                                    [("foo", Some (mkRuntimeInfo 2 1))]) = Ok (out, ts').
Proof.
  destruct (proj1 get_tests_runtimes_hook_folding spec_testname
              [mkTestStatsDoc "jstests/core/foo.js" 5 1; mkTestStatsDoc "foo:ValidateCollections" 2 1]
              (mkTestStats [("jstests/core/foo.js", Some (mkRuntimeInfo 5 1))]
                           [("foo", Some (mkRuntimeInfo 2 1))]) eq_refl)
    as (out & ts' & Hg & _).
  exists out, ts'. exact Hg.
Defined.

(** C6: the list returned by [get_tests_runtimes] is a permutation of the
    pairs built in the order of the test dict, whose keys are the regular
    tests in order of their first ingested sample; it is sorted by
    decreasing duration, and the tests of any one duration keep that
    order. *)
Theorem get_tests_runtimes_sorted_stable {TN : Testname} docs ts :
  TestStats_init docs = Ok ts ->
  exists tests_ hooks' out ts',
    collect_runtimes (runtime_by_test ts) (hook_runtime_by_test ts) = Ok (tests_, hooks') /\
    map fst tests_ = encounter_order (regular_test_names docs) /\
    get_tests_runtimes ts = Ok (out, ts') /\
    Sorted runtime_ge out /\
    out ≡ₚ tests_ /\
    forall d, List.filter (runtime_is d) out = List.filter (runtime_is d) tests_.
Proof.
  intros Hinit.
  destruct (collect_runtimes_ok (runtime_by_test ts) (hook_runtime_by_test ts)
              (TestStats_init_values _ _ Hinit)) as (tests_ & hooks' & Hc).
  exists tests_, hooks', (sort_by_runtime_desc tests_), (mkTestStats (runtime_by_test ts) hooks').
  split; [done |]. split.
  { rewrite <- (TestStats_init_keys _ _ Hinit). symmetry.
    apply (Forall2_keys _ _ (fun _ _ => True)).
    eapply Forall2_impl; [exact (collect_runtimes_spec _ _ _ _ Hc) |].
    intros e o (info & He & _). by exists info. }
  split; [unfold get_tests_runtimes; by rewrite Hc |].
  split; [apply sort_by_runtime_desc_sorted |].
  split; [apply sort_by_runtime_desc_perm |].
  intros d. apply sort_by_runtime_desc_stable.
Qed.

(** C6 on three tests, two of them tied. *)
Lemma get_tests_runtimes_sorted_stable_witness :
  exists tests_ hooks' out ts',
    collect_runtimes [("a", Some (mkRuntimeInfo 1 1)); ("b", Some (mkRuntimeInfo 3 1));
                      ("c", Some (mkRuntimeInfo 1 1))] [] = Ok (tests_, hooks') /\
    get_tests_runtimes (mkTestStats [("a", Some (mkRuntimeInfo 1 1)); ("b", Some (mkRuntimeInfo 3 1));
                                     ("c", Some (mkRuntimeInfo 1 1))] []) = Ok (out, ts').
Proof.
  destruct (get_tests_runtimes_sorted_stable (TN := spec_testname)
              [mkTestStatsDoc "a" 1 1; mkTestStatsDoc "b" 3 1; mkTestStatsDoc "c" 1 1]
              (mkTestStats [("a", Some (mkRuntimeInfo 1 1)); ("b", Some (mkRuntimeInfo 3 1));
                            ("c", Some (mkRuntimeInfo 1 1))] []) eq_refl)
    as (tests_ & hooks' & out & ts' & Hc & _ & Hg & _).
  exists tests_, hooks', out, ts'. split; [exact Hc | exact Hg].
Defined.

(** C9: when every sample has [num_pass >= 1], ingestion raises nothing,
    and at each sample the entry it is merged into (if any) has a run
    count with [num_run + num_pass > 0], so the denominator of the
    [_average] call is positive; every stored run count stays [>= 1]. *)
Theorem TestStats_init_no_zero_division {TN : Testname} docs :
  Forall (fun doc => (1 <= num_pass doc)%Z) docs ->
  (exists ts, TestStats_init docs = Ok ts /\
     runs_positive (runtime_by_test ts) /\ runs_positive (hook_runtime_by_test ts)) /\
  forall docs1 doc docs2, docs = docs1 ++ doc :: docs2 ->
    exists ts, TestStats_init docs1 = Ok ts /\
      forall info,
        (let f := normalize_test_file (test_file doc) in
         if is_resmoke_hook f then dict_lookup (hook_runtime_by_test ts) (split_test_hook_name f).1
         else dict_lookup (runtime_by_test ts) f) = Some (Some info) ->
        (0 < num_run info + num_pass doc)%Z.
Proof.
  intros Hdocs. split.
  - apply add_all_stats_positive; [intros ? ? [] | intros ? ? [] | done].
  - intros docs1 doc docs2 ->.
    apply Forall_app in Hdocs as [H1 H2]. inversion H2 as [|? ? Hdoc _]; subst.
    destruct (add_all_stats_positive docs1 (mkTestStats [] []) ltac:(intros ? ? []) ltac:(intros ? ? []) H1)
      as (ts & Hts & Hr & Hh).
    exists ts. split; [exact Hts |]. intros info. simpl.
    destruct (is_resmoke_hook _); intros Hl.
    + pose proof (runs_positive_lookup _ _ _ Hh Hl). lia.
    + pose proof (runs_positive_lookup _ _ _ Hr Hl). lia.
Qed.

(** C9 on two samples of one test. *)
Lemma TestStats_init_no_zero_division_witness :
  exists ts, TestStats_init (TN := spec_testname)
               [mkTestStatsDoc "a" 10 5; mkTestStatsDoc "a" 20 5] = Ok ts.
Proof.
  destruct (proj1 (TestStats_init_no_zero_division (TN := spec_testname)
                     [mkTestStatsDoc "a" 10 5; mkTestStatsDoc "a" 20 5]
                     ltac:(repeat constructor; simpl; lia))) as (ts & Hts & _).
  exists ts. exact Hts.
Defined.

(** C8: [calculate_suites] returns the fallback suites (with [test_list]
    unchanged) when fetching the statistics raises [HTTPError] with
    status 503; any other exception of the fetch is re-raised; after a
    successful fetch the result is that of the stats-based computation,
    which itself never raises [HTTPError], so the fallback is not taken. *)
Theorem calculate_suites_fallback_only_on_503 {TN : Testname}
    (execution_time_minutes : Z) (max_sub_suites : option Z) (fallback_num_sub_suites : Z)
    (suite_tests test_list : list string) :
  calculate_suites (Err (HTTPError SERVICE_UNAVAILABLE)) execution_time_minutes max_sub_suites
    fallback_num_sub_suites suite_tests test_list =
    (suites ← calculate_fallback_suites fallback_num_sub_suites suite_tests; Ok (suites, test_list)) /\
  (forall e, e <> HTTPError SERVICE_UNAVAILABLE ->
     calculate_suites (Err e) execution_time_minutes max_sub_suites
       fallback_num_sub_suites suite_tests test_list = Err e) /\
  (forall data,
     calculate_suites (Ok data) execution_time_minutes max_sub_suites
       fallback_num_sub_suites suite_tests test_list =
     calculate_suites_from_evg_stats data (inject_Z (execution_time_minutes * 60)) max_sub_suites).
Proof.
  split; [| split].
  - reflexivity.
  - intros e He. unfold calculate_suites. simpl.
    destruct e as [| | |code|]; try done.
    destruct (Z.eqb_spec code SERVICE_UNAVAILABLE) as [->|_]; [done | done].
  - intros data. unfold calculate_suites. simpl.
    pose proof (calculate_suites_from_evg_stats_raises data
                  (inject_Z (execution_time_minutes * 60)) max_sub_suites) as Hr.
    destruct (calculate_suites_from_evg_stats _ _ _) as [r|e]; [done |].
    simpl in Hr. by destruct Hr as [->| ->].
Qed.

(** C8 with a non-503 HTTP error. *)
Lemma calculate_suites_fallback_only_on_503_witness :
  calculate_suites (TN := spec_testname) (Err (HTTPError 500)) 60 None 3 ["t0"] [] = Err (HTTPError 500).
Proof.
  apply (proj1 (proj2 (calculate_suites_fallback_only_on_503 (TN := spec_testname) 60 None 3 ["t0"] [])) (HTTPError 500)).
  unfold SERVICE_UNAVAILABLE. intros H. injection H. lia.
Defined.

(* ================================================================== *)
(** * Further properties of the code *)

(* ------------------------------------------------------------------ *)
(** ** Runtime bookkeeping *)

Lemma fold_runtime_acc (l : list (string * Q)) : forall a,
  fold_left (fun acc p => acc + p.2) l a == a + sum_runtime l.
Proof.
  unfold sum_runtime. induction l as [|p l IH]; intros a; simpl; [lra |].
  rewrite (IH (a + p.2)), (IH (0 + p.2)). lra.
Qed.

Lemma sum_runtime_cons p l : sum_runtime (p :: l) == p.2 + sum_runtime l.
Proof. unfold sum_runtime at 1. simpl. rewrite fold_runtime_acc. lra. Qed.




Lemma divide_remaining_loop_length rem : forall suites i res,
  divide_remaining_loop rem suites i = Ok res -> length res = length suites.
Proof.
  induction rem as [|[f r] rem IH]; intros suites i res H; simpl in *.
  - by injection H as <-.
  - destruct (suites !! i) as [s|]; [| discriminate].
    rewrite (IH _ _ _ H). apply length_insert.
Qed.


(** With [max_suites = m] ([m <> 0]) the loop never closes more than
    [max(m, 1)] suites, and on [break] the current suite is fresh. *)
Lemma divide_loop_cap mt m ts : (m <> 0)%Z -> forall idx suites cur,
  (length suites < Z.to_nat (Z.max m 1))%nat ->
  match divide_loop mt (Some m) idx ts suites cur with
  | (suites', _, None) => (length suites' < Z.to_nat (Z.max m 1))%nat
  | (suites', cur', Some _) => (length suites' <= Z.to_nat (Z.max m 1))%nat /\ cur' = new_suite
  end.
Proof.
  intros Hm. induction ts as [|[f r] ts IH]; intros idx suites cur Hlen; simpl; [done |].
  destruct (negb _); [destruct (Nat.ltb _ _) |]; [| by apply IH | by apply IH].
  destruct (Z.eqb_spec m 0) as [|_]; [lia |]. simpl.
  destruct (Z.leb_spec m (Z.of_nat (length (suites ++ [cur])))) as [Hr|Hr].
  - rewrite length_app. simpl. split; [lia | done].
  - apply IH. rewrite length_app in *. simpl in *. lia.
Qed.

(** The input is consumed unsplit when all of it fits in the current suite. *)
Lemma divide_loop_fits mt ms ts : Forall (fun p => 0 <= p.2) ts -> forall idx suites cur,
  total_runtime cur + sum_runtime ts <= mt ->
  divide_loop mt ms idx ts suites cur = (suites, add_tests cur ts, None).
Proof.
  induction ts as [|[f r] ts IH]; intros Hnn idx suites cur Hle; simpl; [done |].
  inversion Hnn as [|? ? Hr Hnn']; subst. simpl in Hr.
  pose proof (sum_runtime_nonneg ts Hnn') as Hs.
  rewrite sum_runtime_cons in Hle. simpl in Hle.
  destruct (Qle_bool _ mt) eqn:Hq.
  - simpl. apply IH; [done |]. simpl. lra.
  - exfalso. assert (Hq' : total_runtime cur + r <= mt) by lra.
    apply Qle_bool_iff in Hq'. unfold get_runtime in Hq. congruence.
Qed.

Lemma closed_when_full_snoc mt segs c :
  closed_when_full mt segs -> opened_when_full mt segs c -> closed_when_full mt (segs ++ [c]).
Proof.
  intros Hcl Hop i a x b Ha Hb.
  destruct (decide (S i < length segs)%nat) as [Hlt|Hge].
  - rewrite lookup_app_l in Ha by lia. rewrite lookup_app_l in Hb by lia.
    exact (Hcl i a x b Ha Hb).
  - rewrite lookup_app_r in Hb by lia.
    destruct (S i - length segs)%nat as [|n] eqn:Hn; [| by rewrite lookup_cons_ne_0 in Hb].
    simpl in Hb. injection Hb as Hb. subst c.
    rewrite lookup_app_l in Ha by lia.
    assert (Hlast : last segs = Some a) by (rewrite last_lookup; replace (pred (length segs)) with i by lia; done).
    destruct (Hop a Hlast) as (x' & b' & Heq & Hlt). injection Heq as -> ->. done.
Qed.

(** Without a usable [max_suites] the loop never breaks: it splits the
    input into consecutive segments, closing one exactly when the next
    test does not fit. *)
Lemma divide_loop_nocap mt ms ts : truthy ms = false -> forall idx segs seg_cur,
  Forall (fun seg => seg <> []) segs -> Forall (later_tests_fit mt) segs ->
  later_tests_fit mt seg_cur -> closed_when_full mt segs -> opened_when_full mt segs seg_cur ->
  exists segs' seg',
    divide_loop mt ms idx ts (map suite_of segs) (suite_of seg_cur) = (map suite_of segs', suite_of seg', None) /\
    concat segs' ++ seg' = concat segs ++ seg_cur ++ ts /\
    Forall (fun seg => seg <> []) segs' /\ Forall (later_tests_fit mt) segs' /\
    later_tests_fit mt seg' /\ closed_when_full mt segs' /\ opened_when_full mt segs' seg'.
Proof.
  intros Ht. induction ts as [|[f r] ts IH]; intros idx segs seg_cur Hne Hfs Hfc Hcl Hop; simpl.
  - exists segs, seg_cur. rewrite app_nil_r. tauto.
  - unfold get_runtime, get_test_count.
    rewrite total_suite_of, tests_suite_of, length_map.
    destruct (Qle_bool (sum_runtime seg_cur + r) mt) eqn:Hq; simpl.
    + rewrite <- suite_of_snoc.
      destruct (IH (S idx) segs (seg_cur ++ [(f, r)]) Hne Hfs) as (segs' & seg' & Heq & Hcat & Hrest).
      * apply later_tests_fit_snoc; [done |]. right. by apply Qle_bool_iff.
      * done.
      * intros a Ha. destruct (Hop a Ha) as (x & b & -> & Hlt). by exists x, (b ++ [(f, r)]).
      * exists segs', seg'. split; [done |]. split; [| done].
        rewrite Hcat, <- app_assoc. done.
    + assert (Hover : mt < sum_runtime seg_cur + r).
      { apply Qnot_le_lt. intros Hle. apply Qle_bool_iff in Hle. congruence. }
      destruct (Nat.ltb 0 (length seg_cur)) eqn:Hc.
      * apply Nat.ltb_lt in Hc.
        assert (Hcur : seg_cur <> []) by (intros ->; simpl in Hc; lia).
        replace (map suite_of segs ++ [suite_of seg_cur]) with (map suite_of (segs ++ [seg_cur]))
          by (by rewrite map_app).
        rewrite length_map.
        destruct (max_suites_reached ms (length (segs ++ [seg_cur]))) eqn:Hr.
        { apply max_suites_reached_truthy in Hr. congruence. }
        change (add_test new_suite f r) with (suite_of [(f, r)]).
        destruct (IH (S idx) (segs ++ [seg_cur]) [(f, r)]) as (segs' & seg' & Heq & Hcat & Hrest).
        -- apply Forall_app. split; [done | by constructor].
        -- apply Forall_app. split; [done | by constructor].
        -- apply later_tests_fit_single.
        -- by apply closed_when_full_snoc.
        -- intros a Ha. rewrite last_snoc in Ha. injection Ha as <-. by exists (f, r), [].
        -- exists segs', seg'. split; [done |]. split; [| done].
           rewrite Hcat, concat_app. simpl. rewrite app_nil_r, <- !app_assoc. done.
      * apply Nat.ltb_ge in Hc. destruct seg_cur; [| simpl in Hc; lia].
        change (add_test (suite_of []) f r) with (suite_of [(f, r)]).
        destruct (IH (S idx) segs [(f, r)] Hne Hfs) as (segs' & seg' & Heq & Hcat & Hrest).
        -- apply later_tests_fit_single.
        -- done.
        -- intros a Ha. destruct (Hop a Ha) as (x & b & Hx & _). discriminate.
        -- exists segs', seg'. split; [done |]. split; [| done]. rewrite Hcat. done.
Qed.

(* ------------------------------------------------------------------ *)
(** ** divide_tests_into_suites *)


(** With [max_suites = m] for a non-zero [m], [divide_tests_into_suites]
    returns at most [m] suites when [m >= 1], and at most one suite when
    [m] is negative (then [len(suites) >= max_suites] holds at once). *)
Theorem divide_tests_into_suites_max_suites (ts : list (string * Q)) (mt : Q) (m : Z) :
  (m <> 0)%Z ->
  exists res, divide_tests_into_suites ts mt (Some m) = Ok res /\
    (length res <= Z.to_nat (Z.max m 1))%nat.
Proof.
  intros Hm.
  destruct (divide_spec ts mt (Some m)) as (_ & _ & res & Hres & _).
  exists res. split; [done |]. revert Hres. unfold divide_tests_into_suites.
  pose proof (divide_loop_cap mt m ts Hm 0 [] new_suite ltac:(simpl; lia)) as Hc.
  destruct (divide_loop mt (Some m) 0 ts [] new_suite) as [[suites cur] [k|]].
  - destruct Hc as [Hc ->]. simpl.
    destruct (_ && _); [intros H; rewrite (divide_remaining_loop_length _ _ _ _ H) |
                        intros H; injection H as <-]; done.
  - destruct (Nat.ltb 0 (get_test_count cur)); destruct (_ && _); intros H;
      try (rewrite (divide_remaining_loop_length _ _ _ _ H));
      try (injection H as <-); rewrite ?length_app; simpl; lia.
Qed.

Lemma divide_tests_into_suites_max_suites_witness :
  exists res, divide_tests_into_suites [("A", 100); ("B", 100); ("C", 100)] 150 (Some 2%Z) = Ok res /\
    (length res <= Z.to_nat (Z.max 2 1))%nat.
Proof. apply divide_tests_into_suites_max_suites. lia. Defined.

(** When the runtimes are non-negative and add up to at most
    [max_time_seconds], [divide_tests_into_suites] puts every test, in
    input order, into one suite, whatever [max_suites] is. *)
Theorem divide_tests_into_suites_all_fit (ts : list (string * Q)) (mt : Q) (ms : option Z) :
  Forall (fun p => 0 <= p.2) ts -> ts <> [] -> sum_runtime ts <= mt ->
  divide_tests_into_suites ts mt ms = Ok [suite_of ts].
Proof.
  intros Hnn Hne Hle. unfold divide_tests_into_suites.
  rewrite (divide_loop_fits mt ms ts Hnn 0 [] new_suite) by (simpl; lra).
  unfold get_test_count. rewrite tests_add_tests. simpl. rewrite length_map.
  destruct ts as [|p ts]; [done |]. simpl.
  rewrite Nat.ltb_irrefl, andb_false_r. reflexivity.
Qed.

Lemma divide_tests_into_suites_all_fit_witness :
  divide_tests_into_suites [("A", 50); ("B", 60)] 150 (Some 1%Z) = Ok [suite_of [("A", 50); ("B", 60)]].
Proof.
  apply divide_tests_into_suites_all_fit.
  - repeat constructor; simpl; lra.
  - done.
  - unfold sum_runtime. simpl. lra.
Defined.

(** Without a usable [max_suites] ([None] or [0]), the suites are
    consecutive segments of the input, in input order and none empty; a
    test joins the current suite exactly when it fits beside it (the
    first test of a suite excepted), and each suite was closed because the
    first test of the next one did not fit. *)
Theorem divide_tests_into_suites_no_max_suites (ts : list (string * Q)) (mt : Q) (ms : option Z) :
  truthy ms = false ->
  exists segs, divide_tests_into_suites ts mt ms = Ok (map suite_of segs) /\
    concat segs = ts /\ Forall (fun seg => seg <> []) segs /\
    Forall (later_tests_fit mt) segs /\ closed_when_full mt segs.
Proof.
  intros Ht. unfold divide_tests_into_suites.
  destruct (divide_loop_nocap mt ms ts Ht 0 [] [] (List.Forall_nil _) (List.Forall_nil _)
              (later_tests_fit_nil mt)) as (segs & seg & Heq & Hcat & Hne & Hfs & Hfc & Hcl & Hop).
  - intros i a x b Ha. done.
  - intros a Ha. done.
  - change (map suite_of []) with (@nil Suite) in Heq.
    change (suite_of []) with new_suite in Heq.
    rewrite Heq. simpl in Hcat.
    unfold get_test_count. rewrite tests_suite_of, length_map, Ht. simpl.
    destruct seg as [|x seg'] eqn:Hseg; simpl.
    + exists segs. rewrite app_nil_r in Hcat. done.
    + rewrite <- Hseg in *. exists (segs ++ [seg]).
      split; [by rewrite map_app |].
      split; [by rewrite concat_app; simpl; rewrite app_nil_r |].
      split; [apply Forall_app; split; [done | constructor; [by rewrite Hseg | done]] |].
      split; [apply Forall_app; split; [done | by constructor] |].
      by apply closed_when_full_snoc.
Qed.

Lemma divide_tests_into_suites_no_max_suites_witness :
  exists segs, divide_tests_into_suites [("A", 100); ("B", 100); ("C", 40)] 150 None = Ok (map suite_of segs) /\
    concat segs = [("A", 100); ("B", 100); ("C", 40)].
Proof.
  destruct (divide_tests_into_suites_no_max_suites [("A", 100); ("B", 100); ("C", 40)] 150 None eq_refl)
    as (segs & Hres & Hcat & _).
  exists segs. split; [exact Hres | exact Hcat].
Defined.

(** [divide_tests_into_suites] returns no suite exactly when it is given
    no test. *)
Theorem divide_tests_into_suites_empty (ts : list (string * Q)) (mt : Q) (ms : option Z) res :
  divide_tests_into_suites ts mt ms = Ok res -> (res = [] <-> ts = []).
Proof.
  intros H. split.
  - intros ->.
    destruct (divide_spec ts mt ms) as (_ & _ & res' & Hres & _ & _ & _ & _ & _ & Hperm).
    rewrite H in Hres. injection Hres as <-. simpl in Hperm.
    apply Permutation_nil in Hperm. by destruct ts.
  - intros ->. unfold divide_tests_into_suites in H. simpl in H.
    rewrite andb_false_r in H. by injection H as <-.
Qed.

Lemma divide_tests_into_suites_empty_witness :
  divide_tests_into_suites [("A", 100)] 150 None = Ok [suite_of [("A", 100)]] /\
  ([suite_of [("A", 100)]] = [] <-> [("A", 100)] = []).
Proof.
  split; [reflexivity |].
  apply (divide_tests_into_suites_empty [("A", 100)] 150 None). reflexivity.
Defined.

(* ------------------------------------------------------------------ *)
(** ** Round-robin shares *)

Lemma rr_share_snoc {A} n j (l : list A) x : forall off,
  rr_share n j off (l ++ [x]) =
  rr_share n j off l ++ (if Nat.eqb ((off + length l) mod n) j then [x] else []).
Proof.
  induction l as [|y l IH]; intros off; simpl.
  - rewrite Nat.add_0_r. by destruct (Nat.eqb _ _).
  - rewrite IH. replace (S off + length l)%nat with (off + S (length l))%nat by lia.
    by destruct (Nat.eqb (off mod n) j).
Qed.

(** Bin [j] of [n] receives [len / n] elements, one more when [j] is
    below [len mod n]. *)
Lemma rr_share_length {A} n j (l : list A) :
  (0 < n)%nat -> (j < n)%nat ->
  length (rr_share n j 0 l) = (length l / n + (if Nat.ltb j (length l mod n) then 1 else 0))%nat.
Proof.
  intros Hn Hj. assert (Hn0 : n <> 0%nat) by lia.
  induction l as [|x l IH] using rev_ind.
  - simpl. rewrite Nat.Div0.div_0_l, Nat.Div0.mod_0_l. destruct (Nat.ltb_spec j 0); lia.
  - rewrite rr_share_snoc, length_app, IH, length_app. simpl.
    set (L := length l).
    pose proof (Nat.div_mod L n Hn0) as Hd. pose proof (Nat.mod_upper_bound L n Hn0) as Hb.
    destruct (Nat.eq_dec (S (L mod n)) n) as [Heq|Hne].
    + assert (Hq : ((L + 1) / n = S (L / n))%nat).
      { symmetry. apply (Nat.div_unique _ _ _ 0); [lia |]. rewrite Nat.mul_succ_r. lia. }
      assert (Hm : ((L + 1) mod n = 0)%nat).
      { symmetry. apply (Nat.mod_unique _ _ (S (L / n)) 0); [lia |]. rewrite Nat.mul_succ_r. lia. }
      rewrite Hq, Hm.
      destruct (Nat.eqb_spec (L mod n) j); destruct (Nat.ltb_spec j (L mod n));
        destruct (Nat.ltb_spec j 0); simpl; lia.
    + assert (Hq : ((L + 1) / n = L / n)%nat).
      { symmetry. apply (Nat.div_unique _ _ _ (S (L mod n))); lia. }
      assert (Hm : ((L + 1) mod n = S (L mod n))%nat).
      { symmetry. apply (Nat.mod_unique _ _ (L / n) (S (L mod n))); lia. }
      rewrite Hq, Hm.
      destruct (Nat.eqb_spec (L mod n) j); destruct (Nat.ltb_spec j (L mod n));
        destruct (Nat.ltb_spec j (S (L mod n))); simpl; lia.
Qed.

Lemma fold_runtime_zeros (l : list string) : forall a,
  fold_left (fun acc p => acc + p.2) (map (fun t => (t, 0)) l) a == a.
Proof. induction l as [|t l IH]; intros a; simpl; [lra |]. rewrite IH. lra. Qed.

(* ------------------------------------------------------------------ *)
(** ** divide_remaining_tests_among_suites *)

(** Over [n >= 1] suites, [divide_remaining_tests_among_suites] keeps the
    number of suites and appends to suite [j] the remaining tests at the
    positions [i] with [i mod n = j]: [len / n] tests, one more for the
    first [len mod n] suites, so the counts differ by at most one. Over no
    suite it raises [IndexError] as soon as there is a test to place. *)
Theorem divide_remaining_tests_among_suites_balanced :
  (forall (rem : list (string * Q)) (suites : list Suite), (1 <= length suites)%nat ->
     exists res, divide_remaining_tests_among_suites rem suites = Ok res /\
       length res = length suites /\
       forall j s, suites !! j = Some s -> exists s', res !! j = Some s' /\
         tests s' = tests s ++ map fst (rr_share (length suites) j 0 rem) /\
         length (tests s') = (length (tests s) + length rem / length suites +
                              (if Nat.ltb j (length rem mod length suites) then 1 else 0))%nat) /\
  (forall (rem : list (string * Q)), rem <> [] ->
     divide_remaining_tests_among_suites rem [] = Err IndexError).
Proof.
  split.
  - intros rem suites Hn.
    destruct (divide_remaining_loop_spec (length suites) rem suites 0 eq_refl ltac:(lia))
      as (res & Hres & Hlen & Hpt).
    rewrite Nat.Div0.mod_0_l in Hres.
    exists res. split; [exact Hres |]. split; [exact Hlen |].
    intros j s Hj. exists (add_tests s (rr_share (length suites) j 0 rem)).
    split; [by apply Hpt |]. rewrite tests_add_tests. split; [done |].
    rewrite length_app, length_map, rr_share_length; [lia | lia |].
    by eapply lookup_lt_Some.
  - intros [|[f r] rem] Hrem; [done | reflexivity].
Qed.

Lemma divide_remaining_tests_among_suites_balanced_witness :
  (exists res, divide_remaining_tests_among_suites [("C", 100); ("D", 100); ("E", 100)]
                 [suite_of [("A", 100)]; suite_of [("B", 100)]] = Ok res) /\
  divide_remaining_tests_among_suites [("C", 100)] [] = Err IndexError.
Proof.
  split.
  - destruct (proj1 divide_remaining_tests_among_suites_balanced [("C", 100); ("D", 100); ("E", 100)]
                [suite_of [("A", 100)]; suite_of [("B", 100)]] ltac:(simpl; lia)) as (res & Hres & _).
    by exists res.
  - apply (proj2 divide_remaining_tests_among_suites_balanced). done.
Defined.

(* ------------------------------------------------------------------ *)
(** ** calculate_fallback_suites *)

(** For [num_suites >= 1], suite [j] of [calculate_fallback_suites] holds
    [len / num_suites] tests, one more for the first [len mod num_suites]
    suites, and its total runtime is 0. *)
Theorem calculate_fallback_suites_balanced (num_suites : Z) (tests_ : list string) :
  (1 <= num_suites)%Z ->
  exists res, calculate_fallback_suites num_suites tests_ = Ok res /\
    forall j s, res !! j = Some s ->
      length (tests s) = (length tests_ / Z.to_nat num_suites +
                          (if Nat.ltb j (length tests_ mod Z.to_nat num_suites) then 1 else 0))%nat /\
      total_runtime s == 0.
Proof.
  intros Hn.
  destruct (calculate_fallback_suites_spec num_suites tests_ Hn) as (res & Hres & Hlen & Hpt).
  exists res. split; [exact Hres |].
  intros j s Hs.
  assert (Hj : (j < Z.to_nat num_suites)%nat) by (rewrite <- Hlen; by eapply lookup_lt_Some).
  rewrite (Hpt j Hj) in Hs. injection Hs as <-.
  rewrite tests_add_tests, total_add_tests. simpl. rewrite !length_map.
  split; [apply rr_share_length; lia |]. apply fold_runtime_zeros.
Qed.

Lemma calculate_fallback_suites_balanced_witness :
  exists res, calculate_fallback_suites 3 ["t0"; "t1"; "t2"; "t3"] = Ok res.
Proof.
  destruct (calculate_fallback_suites_balanced 3 ["t0"; "t1"; "t2"; "t3"] ltac:(lia)) as (res & Hres & _).
  by exists res.
Defined.

(** For [num_suites <= 0], [calculate_fallback_suites] returns no suite on
    an empty test list; otherwise [idx % num_suites] raises
    [ZeroDivisionError] when [num_suites = 0], and indexing the empty list
    [[Suite() for _ in range(num_suites)]] raises [IndexError] when
    [num_suites < 0]. *)
Theorem calculate_fallback_suites_nonpositive (num_suites : Z) (tests_ : list string) :
  (num_suites <= 0)%Z ->
  calculate_fallback_suites num_suites tests_ =
    match tests_ with
    | [] => Ok []
    | _ :: _ => if Z.eqb num_suites 0 then Err ZeroDivisionError else Err IndexError
    end.
Proof.
  intros Hn. unfold calculate_fallback_suites.
  replace (Z.to_nat num_suites) with 0%nat by lia. simpl.
  destruct tests_ as [|t tests_]; [done |]. simpl.
  destruct (Z.eqb_spec num_suites 0) as [|Hne]; [done |].
  unfold py_index. simpl.
  reflexivity.
Qed.

Lemma calculate_fallback_suites_nonpositive_witness :
  calculate_fallback_suites (-2) ["t0"] = Err IndexError.
Proof. apply (calculate_fallback_suites_nonpositive (-2) ["t0"]). lia. Defined.

(* ------------------------------------------------------------------ *)
(** ** Run counts and durations of TestStats *)

Lemma dict_value_set d k v k' :
  dict_value (dict_set d k v) k' = if String.eqb k k' then v else dict_value d k'.
Proof.
  unfold dict_value. induction d as [|[k0 v0] d IH]; simpl.
  - destruct (String.eqb_spec k' k) as [->|Hne]; [by rewrite String.eqb_refl |].
    destruct (String.eqb_spec k k'); [congruence | done].
  - destruct (String.eqb_spec k k0) as [->|Hne]; simpl.
    + destruct (String.eqb_spec k' k0) as [->|Hne']; [by rewrite String.eqb_refl |].
      destruct (String.eqb_spec k0 k'); [congruence | done].
    + destruct (String.eqb_spec k' k0); [| done].
      subst. destruct (String.eqb_spec k k0); [congruence | done].
Qed.

Lemma _add_runtime_info_num_run d key dur n d' :
  _add_runtime_info d key dur n = Ok d' ->
  forall k, num_run_of d' k = (num_run_of d k + if String.eqb key k then n else 0)%Z.
Proof.
  unfold _add_runtime_info.
  pose proof (getitem_value d key) as Hv. pose proof (getitem_preserves d key) as Hp.
  destruct (defaultdict_getitem d key) as [d1 v]. simpl in Hv, Hp.
  intros H k. unfold num_run_of.
  destruct v as [info|].
  - unfold mbind, res_bind in H. destruct (_average _ _ _ _) as [avg|e]; [| discriminate].
    injection H as <-. rewrite dict_value_set, Hp.
    destruct (String.eqb_spec key k) as [<-|_]; [| lia].
    rewrite <- Hv. simpl. lia.
  - injection H as <-. rewrite dict_value_set, Hp.
    destruct (String.eqb_spec key k) as [<-|_]; [| lia].
    rewrite <- Hv. simpl. lia.
Qed.

Section RunCounts.
Context {TN : Testname}.

Lemma add_all_stats_num_run docs : forall ts ts',
  add_all_stats ts docs = Ok ts' -> forall k,
    num_run_of (runtime_by_test ts') k = (num_run_of (runtime_by_test ts) k + test_runs docs k)%Z /\
    num_run_of (hook_runtime_by_test ts') k = (num_run_of (hook_runtime_by_test ts) k + hook_runs docs k)%Z.
Proof.
  induction docs as [|doc docs IH]; intros ts ts' H k; simpl in *.
  - injection H as <-. lia.
  - unfold _add_stats, mbind, res_bind in H.
    destruct (is_resmoke_hook (normalize_test_file (test_file doc))) eqn:Hh; simpl.
    + unfold _add_test_hook_stats, mbind, res_bind in H.
      destruct (_add_runtime_info _ _ _ _) as [d|e] eqn:Hd; [| discriminate].
      destruct (IH _ _ H k) as [H1 H2]. simpl in H1, H2.
      rewrite H1, H2, (_add_runtime_info_num_run _ _ _ _ _ Hd).
      destruct (String.eqb _ k); lia.
    + unfold _add_test_stats, mbind, res_bind in H.
      destruct (_add_runtime_info _ _ _ _) as [d|e] eqn:Hd; [| discriminate].
      destruct (IH _ _ H k) as [H1 H2]. simpl in H1, H2.
      rewrite H1, H2, (_add_runtime_info_num_run _ _ _ _ _ Hd).
      destruct (String.eqb _ k); lia.
Qed.

End RunCounts.



Section StatsInvariants.
Context {TN : Testname}.


(** The two updates of one hook sample and one test sample commute. *)
Lemma _add_stats_hook_test_comm ts h t :
  is_resmoke_hook (normalize_test_file (test_file h)) = true ->
  is_resmoke_hook (normalize_test_file (test_file t)) = false ->
  (ts1 ← _add_stats ts h; _add_stats ts1 t) = (ts1 ← _add_stats ts t; _add_stats ts1 h).
Proof.
  intros Hh Ht. unfold _add_stats. rewrite Hh, Ht.
  unfold _add_test_hook_stats, _add_test_stats, mbind, res_bind. cbn.
  pose proof (_add_runtime_info_raises (hook_runtime_by_test ts)
    (split_test_hook_name (normalize_test_file (test_file h))).1 (avg_duration_pass h) (num_pass h)) as Eh.
  pose proof (_add_runtime_info_raises (runtime_by_test ts)
    (normalize_test_file (test_file t)) (avg_duration_pass t) (num_pass t)) as Et.
  destruct (_add_runtime_info (hook_runtime_by_test ts)
    (split_test_hook_name (normalize_test_file (test_file h))).1 (avg_duration_pass h) (num_pass h))
    as [dh|eh] eqn:EH;
  destruct (_add_runtime_info (runtime_by_test ts)
    (normalize_test_file (test_file t)) (avg_duration_pass t) (num_pass t)) as [dt|et] eqn:ET;
  simpl; rewrite ?EH, ?ET; simpl in *; try done.
  by subst.
Qed.

End StatsInvariants.

(** [collect_runtimes] reads the hook dict only through [d[k]]: on a dict
    with the same values it gives the same list, and it changes no value. *)
Lemma collect_runtimes_congr `{TN : Testname} items : forall h1 h2 out h1',
  (forall k, dict_value h1 k = dict_value h2 k) ->
  collect_runtimes items h1 = Ok (out, h1') ->
  exists h2', collect_runtimes items h2 = Ok (out, h2') /\ forall k, dict_value h2' k = dict_value h1' k.
Proof.
  induction items as [|[t [info|]] items IH]; intros h1 h2 out h1' Heq H; simpl in *; try discriminate.
  - injection H as <- <-. exists h2. split; [done |]. intros k. by rewrite Heq.
  - unfold mbind, res_bind in *.
    pose proof (getitem_value h1 (get_short_name_from_test_file t)) as Hv1.
    pose proof (getitem_preserves h1 (get_short_name_from_test_file t)) as Hp1.
    pose proof (getitem_value h2 (get_short_name_from_test_file t)) as Hv2.
    pose proof (getitem_preserves h2 (get_short_name_from_test_file t)) as Hp2.
    destruct (defaultdict_getitem h1 _) as [g1 v1]. destruct (defaultdict_getitem h2 _) as [g2 v2].
    simpl in *.
    destruct (collect_runtimes items g1) as [[out1 g1']|e] eqn:Hc; [| discriminate].
    injection H as <- <-.
    destruct (IH g1 g2 out1 g1') as (g2' & Hc2 & Hg2); [intros k; by rewrite Hp1, Hp2 | done |].
    rewrite Hc2. exists g2'. split; [| done].
    assert (v1 = v2) as -> by (rewrite Hv1, Hv2; apply Heq). done.
Qed.

Lemma collect_runtimes_values `{TN : Testname} items : forall h out h',
  collect_runtimes items h = Ok (out, h') -> forall k, dict_value h' k = dict_value h k.
Proof.
  induction items as [|[t [info|]] items IH]; intros h out h' H k; simpl in *; try discriminate.
  - by injection H as _ <-.
  - unfold mbind, res_bind in *.
    pose proof (getitem_preserves h (get_short_name_from_test_file t)) as Hp.
    destruct (defaultdict_getitem h _) as [g v]. simpl in *.
    destruct (collect_runtimes items g) as [[out1 g']|e] eqn:Hc; [| discriminate].
    injection H as <- <-. by rewrite (IH _ _ _ Hc), Hp.
Qed.

(* ------------------------------------------------------------------ *)
(** ** TestStats *)

(** After ingestion, [d[k]["num_run"]] is the total [num_pass] of the
    samples of test [k] in the test dict, and of the hook samples of test
    name [k] in the hook dict (0 when there is none). *)
Theorem TestStats_init_num_run {TN : Testname} docs ts :
  TestStats_init docs = Ok ts -> forall k,
    num_run_of (runtime_by_test ts) k = test_runs docs k /\
    num_run_of (hook_runtime_by_test ts) k = hook_runs docs k.
Proof.
  intros H k. destruct (add_all_stats_num_run docs _ _ H k) as [H1 H2].
  simpl in H1, H2. split; [rewrite H1 | rewrite H2]; unfold num_run_of, dict_value; simpl; lia.
Qed.

Lemma TestStats_init_num_run_witness :
  exists ts, TestStats_init (TN := spec_testname) [mkTestStatsDoc "a" 10 5; mkTestStatsDoc "a" 20 5] = Ok ts /\
    num_run_of (runtime_by_test ts) "a" =
      test_runs (TN := spec_testname) [mkTestStatsDoc "a" 10 5; mkTestStatsDoc "a" 20 5] "a".
Proof.
  eexists. split; [reflexivity |].
  apply (proj1 (TestStats_init_num_run (TN := spec_testname)
    [mkTestStatsDoc "a" 10 5; mkTestStatsDoc "a" 20 5] _ eq_refl "a")).
Defined.





(** Hook samples and test samples go to separate dicts: swapping a hook
    sample with an adjacent test sample does not change the ingested
    statistics (nor whether ingestion raises). *)
Theorem TestStats_init_swap_hook_test {TN : Testname} pre h t post :
  is_resmoke_hook (normalize_test_file (test_file h)) = true ->
  is_resmoke_hook (normalize_test_file (test_file t)) = false ->
  TestStats_init (pre ++ h :: t :: post) = TestStats_init (pre ++ t :: h :: post).
Proof.
  intros Hh Ht. unfold TestStats_init. rewrite !add_all_stats_app.
  unfold mbind, res_bind. destruct (add_all_stats _ pre) as [ts|e]; [| done].
  pose proof (_add_stats_hook_test_comm ts h t Hh Ht) as Hc.
  unfold mbind, res_bind in Hc. simpl.
  destruct (_add_stats ts h) as [th|eh]; destruct (_add_stats ts t) as [tt|et];
    unfold mbind, res_bind; simpl; [rewrite Hc | rewrite Hc | rewrite <- Hc | exact Hc]; done.
Qed.

Lemma TestStats_init_swap_hook_test_witness :
  TestStats_init (TN := spec_testname) ([] ++ mkTestStatsDoc "foo:ValidateCollections" 2 1 ::
                                        mkTestStatsDoc "jstests/core/foo.js" 5 1 :: []) =
  TestStats_init (TN := spec_testname) ([] ++ mkTestStatsDoc "jstests/core/foo.js" 5 1 ::
                                        mkTestStatsDoc "foo:ValidateCollections" 2 1 :: []).
Proof. apply TestStats_init_swap_hook_test; reflexivity. Defined.

(** [get_tests_runtimes] leaves the test dict as it is and changes no
    value of the hook dict (the [defaultdict] only gains empty entries),
    so calling it again returns the same list. *)
Theorem get_tests_runtimes_repeatable {TN : Testname} ts out ts' :
  get_tests_runtimes ts = Ok (out, ts') ->
  runtime_by_test ts' = runtime_by_test ts /\
  (forall k, dict_value (hook_runtime_by_test ts') k = dict_value (hook_runtime_by_test ts) k) /\
  exists ts'', get_tests_runtimes ts' = Ok (out, ts'').
Proof.
  unfold get_tests_runtimes, mbind, res_bind.
  destruct (collect_runtimes _ _) as [[tests_ hooks]|e] eqn:Hc; [| discriminate].
  intros H. injection H as <- <-. simpl.
  split; [done |]. split; [exact (collect_runtimes_values _ _ _ _ Hc) |].
  destruct (collect_runtimes_congr (runtime_by_test ts) (hook_runtime_by_test ts) hooks tests_ hooks)
    as (h2 & Hc2 & _); [intros k; symmetry; exact (collect_runtimes_values _ _ _ _ Hc k) | exact Hc |].
  rewrite Hc2. by eexists.
Qed.

Lemma get_tests_runtimes_repeatable_witness :
  exists ts'', get_tests_runtimes (TN := spec_testname)
                 (mkTestStats [("jstests/core/foo.js", Some (mkRuntimeInfo 5 1))] []) = Ok ([("jstests/core/foo.js", 5)], ts'') /\
               exists ts3, get_tests_runtimes (TN := spec_testname) ts'' = Ok ([("jstests/core/foo.js", 5)], ts3).
Proof.
  eexists. split; [reflexivity |].
  apply (get_tests_runtimes_repeatable (TN := spec_testname)
           (mkTestStats [("jstests/core/foo.js", Some (mkRuntimeInfo 5 1))] [])).
  reflexivity.
Defined.

(* ------------------------------------------------------------------ *)
(** ** Main.calculate_suites_from_evg_stats *)

(** When every sample has [num_pass >= 1], the stats-based computation
    raises nothing; the new [test_list] names every regular test once,
    and the suites, none of them empty, hold exactly the tests of
    [test_list]. *)
Theorem calculate_suites_from_evg_stats_ok {TN : Testname} data (execution_time_secs : Q)
    (max_sub_suites : option Z) :
  Forall (fun doc => (1 <= num_pass doc)%Z) data ->
  exists suites test_list,
    calculate_suites_from_evg_stats data execution_time_secs max_sub_suites = Ok (suites, test_list) /\
    test_list ≡ₚ encounter_order (regular_test_names data) /\ NoDup test_list /\
    concat (map tests suites) ≡ₚ test_list /\ Forall (fun s => tests s <> []) suites.
Proof.
  intros Hdocs.
  destruct (add_all_stats_positive data (mkTestStats [] []) ltac:(intros ? ? []) ltac:(intros ? ? []) Hdocs)
    as (ts & Hts & _).
  assert (Hinit : TestStats_init data = Ok ts) by exact Hts.
  destruct (collect_runtimes_ok (runtime_by_test ts) (hook_runtime_by_test ts)
              (TestStats_init_values _ _ Hinit)) as (tests_ & hooks' & Hc).
  assert (Hkeys : map fst tests_ = encounter_order (regular_test_names data)).
  { rewrite <- (TestStats_init_keys _ _ Hinit). symmetry.
    apply (Forall2_keys _ _ (fun _ _ => True)).
    eapply Forall2_impl; [exact (collect_runtimes_spec _ _ _ _ Hc) |].
    intros e o (info & He & _). by exists info. }
  destruct (divide_spec (sort_by_runtime_desc tests_) execution_time_secs max_sub_suites)
    as (_ & _ & res & Hres & _ & _ & _ & _ & _ & Hperm).
  exists res, (map fst (sort_by_runtime_desc tests_)).
  assert (Hl : map fst (sort_by_runtime_desc tests_) ≡ₚ encounter_order (regular_test_names data)).
  { rewrite <- Hkeys. apply Permutation_map, sort_by_runtime_desc_perm. }
  split.
  { unfold calculate_suites_from_evg_stats, mbind, res_bind. rewrite Hinit.
    unfold get_tests_runtimes, mbind, res_bind. rewrite Hc. simpl. by rewrite Hres. }
  split; [exact Hl |]. split.
  { rewrite Hl. apply fold_first_seen_nodup. constructor. }
  split; [exact Hperm |].
  exact (divide_tests_into_suites_nonempty _ _ _ _ Hres).
Qed.

Lemma calculate_suites_from_evg_stats_ok_witness :
  exists suites test_list,
    calculate_suites_from_evg_stats (TN := spec_testname)
      [mkTestStatsDoc "jstests/core/foo.js" 5 1; mkTestStatsDoc "foo:ValidateCollections" 2 1;
       mkTestStatsDoc "jstests/core/bar.js" 6 2] 3600 None = Ok (suites, test_list).
Proof.
  destruct (calculate_suites_from_evg_stats_ok (TN := spec_testname)
    [mkTestStatsDoc "jstests/core/foo.js" 5 1; mkTestStatsDoc "foo:ValidateCollections" 2 1;
     mkTestStatsDoc "jstests/core/bar.js" 6 2] 3600 None ltac:(repeat constructor; simpl; lia))
    as (suites & test_list & H & _).
  exists suites, test_list. exact H.
Defined.
